(** * AI resume analyzer: the scoring and response-normalisation code of app.py

    A shallow embedding of app.py:
    - the Python string operations the code relies on ([str.split],
      [str.strip], [str.lower], [in], [str.split(sep)], [str.format]);
    - the binary64 arithmetic behind the scores (true division, product,
      sum and [round(x, 2)]);
    - the values [json.loads] produces and the dictionary operations of
      the reconciliation loops;
    - the keyword scorer, the detailed scorer, the five schema-bound facet
      functions, the free-text evaluation and the top-level flow.

    Texts are sequences of code points below 256 (Latin-1), carried by
    Rocq's [string].  The remote model, [json.loads] and
    [Courses.recommend_courses] are outside this file of the repository:
    they are parameters of the functions that call them. *)

From Stdlib Require Import ZArith QArith Lia String Ascii List Bool Floats.
From stdpp Require Import base gmap strings.

Local Open Scope Z_scope.

(* ===================================================================== *)
(** * Exceptions *)
(* ===================================================================== *)

(** The exceptions the modelled code can meet. [ServiceError] stands for
    whatever the remote client raises. *)
Inductive exn : Type :=
| KeyError (key : string)
| IndexError
| ValueError
| TypeError
| AttributeError
| ZeroDivisionError
| ServiceError.

(** The outcome of an expression: a value, or a raised exception. *)
Inductive result (A : Type) : Type :=
| Ok (a : A)
| Raise (e : exn).
Arguments Ok {A} a.
Arguments Raise {A} e.

(* ===================================================================== *)
(** * Python strings *)
(* ===================================================================== *)

Module PyStr.

(** The double quote, written by its code. *)
Definition dq : string := String (ascii_of_nat 34) EmptyString.
Definition nl : string := String (ascii_of_nat 10) EmptyString.

(** [quoted s] is [s] between double quotes. *)
Definition quoted (s : string) : string := dq +:+ s +:+ dq.

(** [lines ls] joins the lines of a triple-quoted literal. *)
Fixpoint lines (ls : list string) : string :=
  match ls with
  | [] => EmptyString
  | [l] => l
  | l :: ls' => l +:+ nl +:+ lines ls'
  end.

(** [str.isspace] on one code point below 256: TAB..CR, FS..US, space,
    NEL and the no-break space. *)
Definition isspace (c : ascii) : bool :=
  let n := N_of_ascii c in
  (((9 <=? n) && (n <=? 13)) || ((28 <=? n) && (n <=? 32))
   || (n =? 133) || (n =? 160))%N.

(** [str.lower] on one code point below 256: A..Z and the accented
    capitals À..Þ (the multiplication sign apart) move up by 32. *)
Definition lower_char (c : ascii) : ascii :=
  let n := N_of_ascii c in
  if (((65 <=? n) && (n <=? 90))
      || ((192 <=? n) && (n <=? 222) && negb (n =? 215)))%N
  then ascii_of_N (n + 32) else c.

Fixpoint lower (s : string) : string :=
  match s with
  | EmptyString => EmptyString
  | String c s' => String (lower_char c) (lower s')
  end.

(** [not s] for a string. *)
Definition is_empty (s : string) : bool :=
  match s with EmptyString => true | _ => false end.

(** [s.split()]: the maximal runs of non-whitespace, in order. [cur] is the
    run being read. *)
Fixpoint split_ws_go (cur : string) (s : string) : list string :=
  match s with
  | EmptyString => if is_empty cur then [] else [cur]
  | String c s' =>
      if isspace c
      then (if is_empty cur then [] else [cur]) ++ split_ws_go EmptyString s'
      else split_ws_go (cur +:+ String c EmptyString) s'
  end.

Definition split_ws (s : string) : list string := split_ws_go EmptyString s.

(** [s.strip()]. *)
Fixpoint lstrip (s : string) : string :=
  match s with
  | EmptyString => EmptyString
  | String c s' => if isspace c then lstrip s' else s
  end.

Fixpoint rstrip (s : string) : string :=
  match s with
  | EmptyString => EmptyString
  | String c s' =>
      let r := rstrip s' in
      if isspace c && is_empty r then EmptyString else String c r
  end.

Definition strip (s : string) : string := rstrip (lstrip s).

(** [s.startswith(p)]. *)
Fixpoint startswith (p s : string) : bool :=
  match p, s with
  | EmptyString, _ => true
  | String a p', String b s' => if Ascii.eqb a b then startswith p' s' else false
  | String _ _, EmptyString => false
  end.

(** [s.find(sub)], [None] for -1. *)
Fixpoint find (sub s : string) : option nat :=
  if startswith sub s then Some 0%nat
  else match s with
       | EmptyString => None
       | String _ s' => option_map S (find sub s')
       end.

(** [sub in s]. *)
Definition contains (sub s : string) : bool :=
  match find sub s with Some _ => true | None => false end.

Fixpoint take (n : nat) (s : string) : string :=
  match n, s with
  | S n', String c s' => String c (take n' s')
  | _, _ => EmptyString
  end.

Fixpoint drop (n : nat) (s : string) : string :=
  match n, s with
  | S n', String _ s' => drop n' s'
  | _, _ => s
  end.

(** [s.split(sep)] for a non-empty [sep] (both call sites pass a literal
    marker): cut at the leftmost occurrence, go on after it. Each cut
    removes at least one character, so [S (length s)] rounds are enough
    ([split_fuel_enough]). *)
Fixpoint split_fuel (fuel : nat) (sep s : string) : list string :=
  match fuel with
  | O => [s]
  | S fuel' =>
      match find sep s with
      | None => [s]
      | Some i => take i s :: split_fuel fuel' sep (drop (i + String.length sep) s)
      end
  end.

Definition split (sep s : string) : list string :=
  split_fuel (S (String.length s)) sep s.

(** [parts[i]] of a list of strings; [None] is IndexError. *)
Definition item (parts : list string) (i : nat) : option string := nth_error parts i.

(** [", ".join(items)]. *)
Fixpoint join (sep : string) (items : list string) : string :=
  match items with
  | [] => EmptyString
  | [x] => x
  | x :: xs => x +:+ sep +:+ join sep xs
  end.

(** ** [str.format]

    The scanner of CPython's [str.format] (MarkupIterator_next, parse_field
    and get_field_object in Objects/stringlib/unicode_format.h), called with
    keyword arguments only, all of them strings. Fields are handled left to
    right: a field is parsed, then looked up, then rendered, and the first
    error ends the call.

    A field that is found and carries an attribute or index part, a
    conversion or a non-empty format specification is rendered by Python's
    format mini-language, which is not modelled: the outcome is
    [BeyondModel]. No template of app.py has such a field
    ([analysis_prompt_in_model], [extraction_prompt_raises],
    [soft_skills_prompt_raises]). *)

Inductive format_outcome : Type :=
| Formatted (s : string)
| FormatRaises (e : exn)
| BeyondModel.

Inductive fmode : Type :=
| FLiteral
| FOpen
| FClose
| FName (name : string)
| FIndex (name : string)
| FConv (name : string)
| FConvEnd (name : string) (conv : ascii)
| FSpec (name : string) (conv : option ascii) (spec : string) (depth : nat).

Definition snoc (s : string) (c : ascii) : string := s +:+ String c EmptyString.

Definition is_digit (c : ascii) : bool :=
  let n := N_of_ascii c in ((48 <=? n) && (n <=? 57))%N.

Fixpoint all_digits (s : string) : bool :=
  match s with
  | EmptyString => true
  | String c s' => is_digit c && all_digits s'
  end.

(** The first part of a field name: up to the first [.] or [[]. *)
Fixpoint first_part (name : string) : string * string :=
  match name with
  | EmptyString => (EmptyString, EmptyString)
  | String c name' =>
      if Ascii.eqb c "." || Ascii.eqb c "["
      then (EmptyString, name)
      else let '(a, b) := first_part name' in (String c a, b)
  end.

Fixpoint lookup_kw (kwargs : list (string * string)) (key : string) : option string :=
  match kwargs with
  | [] => None
  | (k, v) :: kwargs' => if String.eqb k key then Some v else lookup_kw kwargs' key
  end.

(** One replacement field: the object is looked up first (get_field_object),
    then converted and formatted. An empty or numeric first part indexes the
    positional arguments, of which there are none. *)
Definition render_field (kwargs : list (string * string))
    (name : string) (conv : option ascii) (spec : string) : format_outcome :=
  let '(first, rest) := first_part name in
  if all_digits first then
    if (String.length first <=? 18)%nat then FormatRaises IndexError else BeyondModel
  else
    match lookup_kw kwargs first with
    | None => FormatRaises (KeyError first)
    | Some v =>
        match rest, conv, spec with
        | EmptyString, None, EmptyString => Formatted v
        | _, _, _ => BeyondModel
        end
    end.

(** What one character does to the scanner: either a new mode (and literal
    text to emit), or the end of a field, or an error. *)
Inductive fstep : Type :=
| Goto (m : fmode) (emit : string)
| Field (name : string) (conv : option ascii) (spec : string)
| Bad.

Definition name_step (name : string) (c : ascii) : fstep :=
  if Ascii.eqb c "{" then Bad
  else if Ascii.eqb c "[" then Goto (FIndex (snoc name c)) EmptyString
  else if Ascii.eqb c "}" then Field name None EmptyString
  else if Ascii.eqb c ":" then Goto (FSpec name None EmptyString 1) EmptyString
  else if Ascii.eqb c "!" then Goto (FConv name) EmptyString
  else Goto (FName (snoc name c)) EmptyString.

Definition format_step (m : fmode) (c : ascii) : fstep :=
  match m with
  | FLiteral =>
      if Ascii.eqb c "{" then Goto FOpen EmptyString
      else if Ascii.eqb c "}" then Goto FClose EmptyString
      else Goto FLiteral (String c EmptyString)
  | FOpen =>
      if Ascii.eqb c "{" then Goto FLiteral (String c EmptyString)
      else name_step EmptyString c
  | FClose =>
      if Ascii.eqb c "}" then Goto FLiteral (String c EmptyString) else Bad
  | FName name => name_step name c
  | FIndex name =>
      if Ascii.eqb c "]" then Goto (FName (snoc name c)) EmptyString
      else Goto (FIndex (snoc name c)) EmptyString
  | FConv name => Goto (FConvEnd name c) EmptyString
  | FConvEnd name conv =>
      if Ascii.eqb c "}" then Field name (Some conv) EmptyString
      else if Ascii.eqb c ":" then Goto (FSpec name (Some conv) EmptyString 1) EmptyString
      else Bad
  | FSpec name conv spec depth =>
      if Ascii.eqb c "{" then Goto (FSpec name conv (snoc spec c) (S depth)) EmptyString
      else if Ascii.eqb c "}" then
        match depth with
        | 1%nat => Field name conv spec
        | _ => Goto (FSpec name conv (snoc spec c) (Nat.pred depth)) EmptyString
        end
      else Goto (FSpec name conv (snoc spec c) depth) EmptyString
  end.

Fixpoint format_go (kwargs : list (string * string)) (m : fmode) (out : string)
    (s : string) : format_outcome :=
  match s with
  | EmptyString =>
      match m with
      | FLiteral => Formatted out
      | _ => FormatRaises ValueError
      end
  | String c s' =>
      match format_step m c with
      | Goto m' emit => format_go kwargs m' (out +:+ emit) s'
      | Field name conv spec =>
          match render_field kwargs name conv spec with
          | Formatted v => format_go kwargs FLiteral (out +:+ v) s'
          | other => other
          end
      | Bad => FormatRaises ValueError
      end
  end.

(** [template.format] with keyword arguments [kwargs]. *)
Definition format (template : string) (kwargs : list (string * string)) : format_outcome :=
  format_go kwargs FLiteral EmptyString template.

End PyStr.

(* ===================================================================== *)
(** * Python numbers *)
(* ===================================================================== *)

(** A Python [float] is an IEEE 754 binary64 number. Here a number is the
    rational it denotes, and every float operation is the exact operation
    followed by [fl], rounding to the nearest binary64 value, ties to even
    (53 significant bits, smallest exponent -1074). The model has no upper
    exponent bound, no infinities and no NaN: the scores never leave
    [0, 100]. An [int] is the rational of its value. *)

Module PyNum.

(** [n / d] rounded to the nearest integer, ties to even, for [0 < d]. *)
Definition rhe_div (n d : Z) : Z :=
  let q := n / d in
  let r := n mod d in
  match 2 * r ?= d with
  | Lt => q
  | Gt => q + 1
  | Eq => if Z.even q then q else q + 1
  end.

(** The integer nearest to [x], ties to even. *)
Definition Qrhe (x : Q) : Z :=
  let x' := Qred x in rhe_div (Qnum x') (Zpos (Qden x')).

(** [x * 2 ^ k], exactly. *)
Definition Qshift (x : Q) (k : Z) : Q :=
  if 0 <=? k then Qmake (Qnum x * 2 ^ k) (Qden x)
  else Qmake (Qnum x) (Qden x * Z.to_pos (2 ^ (- k))).

(** For [0 < x]: the [e] with [2 ^ e <= x < 2 ^ (e + 1)]. *)
Definition floor_log2 (x : Q) : Z :=
  let e0 := Z.log2 (Qnum x) - Z.log2 (Zpos (Qden x)) in
  if Qle_bool 1 (Qshift x (- e0)) then e0 else e0 - 1.

(** Rounding of a positive rational to binary64. *)
Definition fl_pos (x : Q) : Q :=
  let s := Z.max (floor_log2 x - 52) (-1074) in
  Qred (Qshift (inject_Z (Qrhe (Qshift x (- s)))) s).

(** Rounding to binary64. *)
Definition fl (x : Q) : Q :=
  let x' := Qred x in
  match Qnum x' with
  | Z0 => 0%Q
  | Zpos _ => fl_pos x'
  | Zneg _ => Qopp (fl_pos (Qopp x'))
  end.

(** A float literal such as [0.3]: the binary64 value nearest to the
    decimal. *)
Definition literal (x : Q) : Q := fl x.

(** The quotient of two ints, [0 < b], correctly rounded. *)
Definition quotient (a b : Z) : Q := fl (Qmake a (Z.to_pos b)).

(** [a / b] on two ints, for [0 <= b] (the divisors here are lengths). *)
Definition truediv (a b : Z) : result Q :=
  if b =? 0 then Raise ZeroDivisionError else Ok (quotient a b).

(** [x * y] and [x + y] on floats (an int operand is converted first,
    exactly for the ints met here). *)
Definition mul (x y : Q) : Q := fl (x * y).
Definition add (x y : Q) : Q := fl (x + y).

(** [round(x, 2)] on a float: the decimal with two places nearest to the
    exact value of [x], ties to even, then the float nearest to that
    decimal (float.__round__ through dtoa and strtod). *)
Definition round2 (x : Q) : Q := fl (Qmake (Qrhe (x * 100)) 100).

(** The rational that a finite binary64 number of Rocq's kernel denotes:
    [fl] is compared with the kernel's arithmetic on sample values
    ([fl_agrees_with_binary64]). *)
Definition of_float (f : float) : Q :=
  match Prim2SF f with
  | S754_finite negative m e =>
      Qred (Qshift (inject_Z (if negative then Zneg m else Zpos m)) e)
  | _ => 0%Q
  end.

(** The kernel's float of an int below [2 ^ 63]. *)
Definition to_float (n : Z) : float := PrimFloat.of_uint63 (Uint63.of_Z n).

End PyNum.

(* ===================================================================== *)
(** * Python values *)
(* ===================================================================== *)

#[local] Set Warnings "-register-all".

(** The objects [json.loads] returns, and [None]: dictionaries keep their
    entries in insertion order, with one entry per key when built by
    [dict_set]. *)
Inductive value : Type :=
| VNone
| VBool (b : bool)
| VInt (n : Z)
| VFloat (x : Q)
| VStr (s : string)
| VList (items : list value)
| VDict (entries : list (string * value)).

Module Py.

Definition bind {A B : Type} (r : result A) (k : A -> result B) : result B :=
  match r with
  | Ok a => k a
  | Raise e => Raise e
  end.

Fixpoint map_result {A B : Type} (f : A -> result B) (l : list A) : result (list B) :=
  match l with
  | [] => Ok []
  | x :: l' => bind (f x) (fun y => bind (map_result f l') (fun ys => Ok (y :: ys)))
  end.

Fixpoint dict_lookup (entries : list (string * value)) (key : string) : option value :=
  match entries with
  | [] => None
  | (k, v) :: entries' => if String.eqb k key then Some v else dict_lookup entries' key
  end.

(** [d[key] = x] on the entries of a dictionary: in place when the key is
    there, at the end otherwise. *)
Fixpoint dict_set (entries : list (string * value)) (key : string) (x : value)
    : list (string * value) :=
  match entries with
  | [] => [(key, x)]
  | (k, v) :: entries' =>
      if String.eqb k key then (k, x) :: entries'
      else (k, v) :: dict_set entries' key x
  end.

(** [bool(v)]. *)
Definition truthy (v : value) : bool :=
  match v with
  | VNone => false
  | VBool b => b
  | VInt n => negb (n =? 0)
  | VFloat x => negb (Qeq_bool x 0)
  | VStr s => negb (PyStr.is_empty s)
  | VList items => match items with [] => false | _ => true end
  | VDict entries => match entries with [] => false | _ => true end
  end.

(** [v.get(key, default)]: only a dictionary has the method. *)
Definition get (v : value) (key : string) (default : value) : result value :=
  match v with
  | VDict entries =>
      Ok (match dict_lookup entries key with Some x => x | None => default end)
  | _ => Raise AttributeError
  end.

(** [v[key]] for a string [key]. *)
Definition getitem (v : value) (key : string) : result value :=
  match v with
  | VDict entries =>
      match dict_lookup entries key with
      | Some x => Ok x
      | None => Raise (KeyError key)
      end
  | _ => Raise TypeError
  end.

(** [v[key] = x] for a string [key]. *)
Definition setitem (v : value) (key : string) (x : value) : result value :=
  match v with
  | VDict entries => Ok (VDict (dict_set entries key x))
  | _ => Raise TypeError
  end.

Definition is_str (key : string) (v : value) : bool :=
  match v with
  | VStr s => String.eqb s key
  | _ => false
  end.

(** [key in v] for a string [key]: a key of a dictionary, an item of a
    list, a substring of a string; anything else is not iterable. *)
Definition contains (key : string) (v : value) : result bool :=
  match v with
  | VDict entries =>
      Ok (match dict_lookup entries key with Some _ => true | None => false end)
  | VList items => Ok (existsb (is_str key) items)
  | VStr s => Ok (PyStr.contains key s)
  | _ => Raise TypeError
  end.

Fixpoint chars (s : string) : list value :=
  match s with
  | EmptyString => []
  | String c s' => VStr (String c EmptyString) :: chars s'
  end.

(** [for x in v]: the items of a list, the keys of a dictionary, the
    characters of a string. *)
Definition iter (v : value) : result (list value) :=
  match v with
  | VList items => Ok items
  | VDict entries => Ok (map (fun kv => VStr (fst kv)) entries)
  | VStr s => Ok (chars s)
  | _ => Raise TypeError
  end.

(** [len(v)]. *)
Definition len (v : value) : result Z :=
  match v with
  | VList items => Ok (Z.of_nat (length items))
  | VDict entries => Ok (Z.of_nat (length entries))
  | VStr s => Ok (Z.of_nat (String.length s))
  | _ => Raise TypeError
  end.

(** [v.lower()]: a string method. *)
Definition lower (v : value) : result string :=
  match v with
  | VStr s => Ok (PyStr.lower s)
  | _ => Raise AttributeError
  end.

(** [v.values()]: a dictionary method. *)
Definition values (v : value) : result (list value) :=
  match v with
  | VDict entries => Ok (map snd entries)
  | _ => Raise AttributeError
  end.

(** [sep.join(v)]: every item must be a string. *)
Definition join (sep : string) (v : value) : result string :=
  bind (iter v) (fun items =>
  bind (map_result (fun x => match x with VStr s => Ok s | _ => Raise TypeError end) items)
       (fun strs => Ok (PyStr.join sep strs))).

End Py.

Notation "'do' x <- e ; k" := (Py.bind e (fun x => k))
  (at level 10, x name, e at level 100, k at level 200).

(* ===================================================================== *)
(** * A JSON decoder *)
(* ===================================================================== *)

(** [json.loads] belongs to Python's library; the facet functions take it
    as a parameter. [Json.loads] is a decoder for the JSON grammar
    (RFC 8259) that the examples run the facet functions with. It gives
    what [json.loads] gives on texts whose [\u] escapes stay below code
    point 256 and whose numbers are within the binary64 range; it rejects
    [NaN] and [Infinity], which [json.loads] accepts. *)
Module Json.

Definition is_ws (c : ascii) : bool :=
  let n := N_of_ascii c in ((n =? 32) || (n =? 9) || (n =? 10) || (n =? 13))%N.

Fixpoint skip_ws (s : string) : string :=
  match s with
  | String c s' => if is_ws c then skip_ws s' else s
  | EmptyString => s
  end.

Definition hex_digit (c : ascii) : option N :=
  let n := N_of_ascii c in
  if ((48 <=? n) && (n <=? 57))%N then Some (n - 48)%N
  else if ((97 <=? n) && (n <=? 102))%N then Some (n - 87)%N
  else if ((65 <=? n) && (n <=? 70))%N then Some (n - 55)%N
  else None.

Inductive smode : Type :=
| Plain
| Escaped
| Unicode (remaining : nat) (code : N).

(** The characters of a string after its opening quote, up to the closing
    quote: the string and the rest of the text. *)
Fixpoint string_body (m : smode) (acc : string) (s : string) : option (string * string) :=
  match s with
  | EmptyString => None
  | String c s' =>
      match m with
      | Plain =>
          if Ascii.eqb c (ascii_of_nat 34) then Some (acc, s')
          else if Ascii.eqb c "\" then string_body Escaped acc s'
          else if (N_of_ascii c <? 32)%N then None
          else string_body Plain (PyStr.snoc acc c) s'
      | Escaped =>
          if Ascii.eqb c (ascii_of_nat 34) || Ascii.eqb c "\" || Ascii.eqb c "/"
          then string_body Plain (PyStr.snoc acc c) s'
          else if Ascii.eqb c "b" then string_body Plain (PyStr.snoc acc (ascii_of_nat 8)) s'
          else if Ascii.eqb c "f" then string_body Plain (PyStr.snoc acc (ascii_of_nat 12)) s'
          else if Ascii.eqb c "n" then string_body Plain (PyStr.snoc acc (ascii_of_nat 10)) s'
          else if Ascii.eqb c "r" then string_body Plain (PyStr.snoc acc (ascii_of_nat 13)) s'
          else if Ascii.eqb c "t" then string_body Plain (PyStr.snoc acc (ascii_of_nat 9)) s'
          else if Ascii.eqb c "u" then string_body (Unicode 4 0) acc s'
          else None
      | Unicode remaining code =>
          match hex_digit c with
          | None => None
          | Some d =>
              let code' := (code * 16 + d)%N in
              match remaining with
              | 1%nat =>
                  if (code' <? 256)%N
                  then string_body Plain (PyStr.snoc acc (ascii_of_N code')) s'
                  else None
              | _ => string_body (Unicode (Nat.pred remaining) code') acc s'
              end
          end
      end
  end.

(** The leading decimal digits of [s]: their value, their number, and the
    rest. *)
Fixpoint digits (value : Z) (count : nat) (s : string) : Z * nat * string :=
  match s with
  | String c s' =>
      if PyStr.is_digit c
      then digits (value * 10 + Z.of_N (N_of_ascii c - 48)) (S count) s'
      else (value, count, s)
  | EmptyString => (value, count, s)
  end.

(** The integer part: a single 0, or digits that do not start with 0. *)
Definition int_part (s : string) : option (Z * string) :=
  match s with
  | String c s' =>
      if Ascii.eqb c "0" then Some (0, s')
      else if PyStr.is_digit c then
        let '(v, _, rest) := digits 0 0 s in Some (v, rest)
      else None
  | EmptyString => None
  end.

(** An optional fraction: its digits as an integer, and how many. *)
Definition frac_part (s : string) : option (Z * nat) * string :=
  match s with
  | String c s' =>
      if Ascii.eqb c "." then
        match digits 0 0 s' with
        | (_, O, _) => (None, s)
        | (v, n, rest) => (Some (v, n), rest)
        end
      else (None, s)
  | EmptyString => (None, s)
  end.

(** An optional exponent. *)
Definition exp_part (s : string) : option Z * string :=
  match s with
  | String c s' =>
      if Ascii.eqb c "e" || Ascii.eqb c "E" then
        let '(sign, s'') :=
          match s' with
          | String d t =>
              if Ascii.eqb d "-" then (-1, t)
              else if Ascii.eqb d "+" then (1, t) else (1, s')
          | EmptyString => (1, s')
          end in
        match digits 0 0 s'' with
        | (_, O, _) => (None, s)
        | (v, _, rest) => (Some (sign * v), rest)
        end
      else (None, s)
  | EmptyString => (None, s)
  end.

Definition pow10 (e : Z) : Q :=
  if 0 <=? e then inject_Z (10 ^ e) else Qmake 1 (Z.to_pos (10 ^ (- e))).

(** A number: an int without fraction and exponent, a float otherwise. *)
Definition number (s : string) : option (value * string) :=
  let '(negative, s1) :=
    match s with
    | String c s' => if Ascii.eqb c "-" then (true, s') else (false, s)
    | EmptyString => (false, s)
    end in
  match int_part s1 with
  | None => None
  | Some (i, s2) =>
      let '(frac, s3) := frac_part s2 in
      let '(expo, s4) := exp_part s3 in
      let sign := if negative then -1 else 1 in
      match frac, expo with
      | None, None => Some (VInt (sign * i), s4)
      | _, _ =>
          let '(f, n) := match frac with Some fn => fn | None => (0, O) end in
          let e := match expo with Some e => e | None => 0 end in
          let mantissa := inject_Z (sign * (i * 10 ^ Z.of_nat n + f)) in
          Some (VFloat (PyNum.literal (mantissa * pow10 (e - Z.of_nat n))), s4)
      end
  end.

Definition keyword (word : string) (v : value) (s : string) : option (value * string) :=
  if PyStr.startswith word s then Some (v, PyStr.drop (String.length word) s) else None.

(** A value, the items of an array after the first, and the members of an
    object: each call strictly inside a text lowers [fuel]. *)
Fixpoint parse_value (fuel : nat) (s : string) : option (value * string) :=
  match fuel with
  | O => None
  | S fuel' =>
      match skip_ws s with
      | String c rest =>
          if Ascii.eqb c "{" then
            match skip_ws rest with
            | String d rest' =>
                if Ascii.eqb d "}" then Some (VDict [], rest')
                else parse_members fuel' [] (String d rest')
            | EmptyString => None
            end
          else if Ascii.eqb c "[" then
            match skip_ws rest with
            | String d rest' =>
                if Ascii.eqb d "]" then Some (VList [], rest')
                else parse_items fuel' [] (String d rest')
            | EmptyString => None
            end
          else if Ascii.eqb c (ascii_of_nat 34) then
            match string_body Plain EmptyString rest with
            | Some (str, rest') => Some (VStr str, rest')
            | None => None
            end
          else if Ascii.eqb c "t" then keyword "true" (VBool true) (String c rest)
          else if Ascii.eqb c "f" then keyword "false" (VBool false) (String c rest)
          else if Ascii.eqb c "n" then keyword "null" VNone (String c rest)
          else number (String c rest)
      | EmptyString => None
      end
  end
with parse_items (fuel : nat) (acc : list value) (s : string) : option (value * string) :=
  match fuel with
  | O => None
  | S fuel' =>
      match parse_value fuel' s with
      | None => None
      | Some (v, rest) =>
          match skip_ws rest with
          | String c rest' =>
              if Ascii.eqb c "," then parse_items fuel' (acc ++ [v]) rest'
              else if Ascii.eqb c "]" then Some (VList (acc ++ [v]), rest')
              else None
          | EmptyString => None
          end
      end
  end
with parse_members (fuel : nat) (acc : list (string * value)) (s : string)
    : option (value * string) :=
  match fuel with
  | O => None
  | S fuel' =>
      match skip_ws s with
      | String c rest =>
          if Ascii.eqb c (ascii_of_nat 34) then
            match string_body Plain EmptyString rest with
            | None => None
            | Some (key, rest1) =>
                match skip_ws rest1 with
                | String d rest2 =>
                    if Ascii.eqb d ":" then
                      match parse_value fuel' rest2 with
                      | None => None
                      | Some (v, rest3) =>
                          let acc' := Py.dict_set acc key v in
                          match skip_ws rest3 with
                          | String e rest4 =>
                              if Ascii.eqb e "," then parse_members fuel' acc' rest4
                              else if Ascii.eqb e "}" then Some (VDict acc', rest4)
                              else None
                          | EmptyString => None
                          end
                      end
                    else None
                | EmptyString => None
                end
            end
          else None
      | EmptyString => None
      end
  end.

(** One value, with nothing but whitespace around it. *)
Definition loads (s : string) : option value :=
  match parse_value (S (String.length s)) s with
  | Some (v, rest) =>
      match skip_ws rest with
      | EmptyString => Some v
      | _ => None
      end
  | None => None
  end.

End Json.

(* ===================================================================== *)
(** * The keyword scorer and the detailed scorer (app.py, lines 43-58 and
      269-303) *)
(* ===================================================================== *)

(** [set(word.lower() for word in text.split() if len(word) > 2)]. *)
Definition word_set (text : string) : gset string :=
  list_to_set
    (map PyStr.lower
       (List.filter (fun word => (2 <? String.length word)%nat) (PyStr.split_ws text))).

(** The truth value of a set: it has an element. *)
Definition nonempty (s : gset string) : bool := negb (size s =? 0)%nat.

(** [(len(a) / len(b)) * 100]. *)
Definition percent (a b : gset string) : result Q :=
  do ratio <- PyNum.truediv (Z.of_nat (size a)) (Z.of_nat (size b));
  Ok (PyNum.mul ratio 100).

Definition calculate_ats_score (resume_text job_description : string)
    : result (Q * gset string) :=
  if PyStr.is_empty resume_text || PyStr.is_empty job_description then Ok (0%Q, ∅)
  else
    let resume_words := word_set resume_text in
    let jd_words := word_set job_description in
    let matched_words := resume_words ∩ jd_words in
    do score <- (if nonempty jd_words then percent matched_words jd_words else Ok 0%Q);
    Ok (PyNum.round2 score, matched_words).

(** The dictionary [calculate_detailed_scores] returns. [experience_score]
    is an int, which [round] leaves as it is. *)
Record detailed_scores : Type := {
  total_score : Q;
  ats_score : Q;
  skills_score : Q;
  experience_score : Z;
  matched_skills : gset string;
  missing_skills : gset string
}.

(** The body of the [try] block. *)
Definition detailed_scores_body (resume_text job_description : string)
    (resume_data : value) : result detailed_scores :=
  let jd_words := word_set job_description in
  let resume_words := word_set resume_text in
  do skills <- Py.get resume_data "skills" (VList []);
  do skill_items <- Py.iter skills;
  do lowered <- Py.map_result Py.lower skill_items;
  let resume_skills : gset string := list_to_set lowered in
  let matched_words := jd_words ∩ resume_words in
  do ats <- (if nonempty jd_words then percent matched_words jd_words else Ok 0%Q);
  let jd_skills := word_set job_description in
  let matched := jd_skills ∩ resume_skills in
  do skills_sc <- (if nonempty jd_skills then percent matched jd_skills else Ok 0%Q);
  do experience <- Py.get resume_data "experience" (VList []);
  do n <- Py.len experience;
  let experience_sc := Z.min 100 (n * 20) in
  let total :=
    PyNum.add
      (PyNum.add (PyNum.mul ats (PyNum.literal (3 # 10)))
                 (PyNum.mul skills_sc (PyNum.literal (4 # 10))))
      (PyNum.mul (inject_Z experience_sc) (PyNum.literal (3 # 10))) in
  Ok {| total_score := PyNum.round2 total;
        ats_score := PyNum.round2 ats;
        skills_score := PyNum.round2 skills_sc;
        experience_score := experience_sc;
        matched_skills := matched;
        missing_skills := jd_skills ∖ resume_skills |}.

(** [None] is the value of the [except] branch. *)
Definition calculate_detailed_scores (resume_text job_description : string)
    (resume_data : value) : option detailed_scores :=
  match detailed_scores_body resume_text job_description resume_data with
  | Ok scores => Some scores
  | Raise _ => None
  end.

(* ===================================================================== *)
(** * The response extractor (the fence stripping repeated in every facet:
      lines 150-154, 349-352, 419-422, 487-490, 568-571) *)
(* ===================================================================== *)

Definition fence : string := "```".
Definition json_fence : string := "```json".

(** [parts[i]], raising IndexError out of range. *)
Definition part (parts : list string) (i : nat) : result string :=
  match PyStr.item parts i with
  | Some s => Ok s
  | None => Raise IndexError
  end.

(** The two branches on the stripped reply [response_text]. *)
Definition strip_code_fence (response_text : string) : result string :=
  if PyStr.contains json_fence response_text then
    do after <- part (PyStr.split json_fence response_text) 1;
    do inner <- part (PyStr.split fence after) 0;
    Ok (PyStr.strip inner)
  else if PyStr.contains fence response_text then
    do after <- part (PyStr.split fence response_text) 1;
    do inner <- part (PyStr.split fence after) 0;
    Ok (PyStr.strip inner)
  else Ok response_text.

(** The extractor on a raw reply: [response.text.strip()], then the fence
    stripping. *)
Definition extract (raw : string) : result string :=
  strip_code_fence (PyStr.strip raw).

(* ===================================================================== *)
(** * Prompt templates *)
(* ===================================================================== *)

Local Abbreviation q := PyStr.quoted.

(** The template [base_prompt] of [analyze_resume] (lines 66-76). *)
Definition analysis_prompt : string :=
  PyStr.lines [
    EmptyString;
    "        As an experienced HR professional with technical expertise, analyze the following resume.";
    "        Please provide:";
    "        1. Overall evaluation of the candidate's profile";
    "        2. Key skills assessment";
    "        3. Skill improvement recommendations";
    "        4. Suggested courses for skill enhancement";
    "        5. Strengths and weaknesses analysis";
    "        Resume:";
    "        {resume_text}";
    "        "
  ].

(** What [analyze_resume] appends for a job description (lines 78-86). *)
Definition analysis_prompt_job : string :=
  PyStr.lines [
    EmptyString;
    "            Job Description Comparison:";
    "            {job_description}";
    "            Additional Analysis:";
    "            - Skills matching with job requirements";
    "            - Experience alignment";
    "            - Qualification fit";
    "            - Areas for improvement specific to this role";
    "            "
  ].

(** The template of [extract_resume_data] (lines 116-134). *)
Definition extraction_prompt : string :=
  PyStr.lines [
    EmptyString;
    "        Extract key information from this resume and return it in a simple JSON format.";
    "        Only include information that is explicitly present in the resume.";
    "        Format your response as a simple JSON object with these exact fields:";
    "        {";
    "            " +:+ q "personal_info" +:+ ": {";
    "                " +:+ q "name" +:+ ": " +:+ q "extracted name" +:+ ",";
    "                " +:+ q "email" +:+ ": " +:+ q "extracted email" +:+ ",";
    "                " +:+ q "phone" +:+ ": " +:+ q "extracted phone" +:+ ",";
    "                " +:+ q "location" +:+ ": " +:+ q "extracted location";
    "            },";
    "            " +:+ q "skills" +:+ ": [" +:+ q "skill1" +:+ ", " +:+ q "skill2" +:+ "],";
    "            " +:+ q "education" +:+ ": [{" +:+ q "degree" +:+ ": " +:+ q "degree name" +:+ ", " +:+ q "institution" +:+ ": " +:+ q "school name" +:+ ", " +:+ q "year" +:+ ": " +:+ q "year" +:+ ", " +:+ q "gpa" +:+ ": " +:+ q "gpa" +:+ "}],";
    "            " +:+ q "experience" +:+ ": [{" +:+ q "title" +:+ ": " +:+ q "job title" +:+ ", " +:+ q "company" +:+ ": " +:+ q "company name" +:+ ", " +:+ q "duration" +:+ ": " +:+ q "duration" +:+ ", " +:+ q "responsibilities" +:+ ": [" +:+ q "resp1" +:+ ", " +:+ q "resp2" +:+ "]}],";
    "            " +:+ q "certifications" +:+ ": [" +:+ q "cert1" +:+ ", " +:+ q "cert2" +:+ "]";
    "        }";
    "        ";
    "        Resume text: {resume_text}";
    "        "
  ].

(** The template of [analyze_soft_skills_and_sentiment] (lines 308-343). *)
Definition soft_skills_prompt : string :=
  PyStr.lines [
    EmptyString;
    "        Analyze the following resume text for soft skills and writing tone. Provide:";
    "        ";
    "        1. Soft Skills Analysis:";
    "        - List all detected soft skills (e.g., leadership, communication, teamwork)";
    "        - Rate each skill's prominence (low, medium, high)";
    "        ";
    "        2. Writing Style Analysis:";
    "        - Formality level (1-10)";
    "        - Professionalism (1-10)";
    "        - Action-orientation (1-10)";
    "        - Clarity (1-10)";
    "        ";
    "        3. Overall Tone Assessment:";
    "        - Confidence level";
    "        - Key tone characteristics";
    "        - Areas for improvement";
    "        ";
    "        Format the response as a JSON object with these exact fields:";
    "        {";
    "            " +:+ q "soft_skills" +:+ ": [{" +:+ q "skill" +:+ ": " +:+ q "skill name" +:+ ", " +:+ q "level" +:+ ": " +:+ q "prominence level" +:+ ", " +:+ q "evidence" +:+ ": " +:+ q "brief example" +:+ "}],";
    "            " +:+ q "writing_style" +:+ ": {";
    "                " +:+ q "formality" +:+ ": number,";
    "                " +:+ q "professionalism" +:+ ": number,";
    "                " +:+ q "action_orientation" +:+ ": number,";
    "                " +:+ q "clarity" +:+ ": number";
    "            },";
    "            " +:+ q "tone_assessment" +:+ ": {";
    "                " +:+ q "confidence_level" +:+ ": " +:+ q "description" +:+ ",";
    "                " +:+ q "characteristics" +:+ ": [" +:+ q "characteristic1" +:+ ", " +:+ q "characteristic2" +:+ "],";
    "                " +:+ q "improvements" +:+ ": [" +:+ q "improvement1" +:+ ", " +:+ q "improvement2" +:+ "]";
    "            }";
    "        }";
    "        ";
    "        Resume text: {text}";
    "        "
  ].

(** The prompt of [analyze_resume_layout] (lines 372-410). *)
Definition layout_prompt : string :=
  PyStr.lines [
    EmptyString;
    "        Analyze the resume's layout and formatting. Provide a detailed assessment of:";
    EmptyString;
    "        1. Layout Analysis:";
    "        - Section organization";
    "        - Content hierarchy";
    "        - White space usage";
    "        - Section completeness";
    "        ";
    "        2. Formatting Consistency:";
    "        - Font usage patterns";
    "        - Bullet point style";
    "        - Date formats";
    "        - Header styles";
    "        ";
    "        3. Design Issues:";
    "        - Identify any inconsistencies";
    "        - Highlight missing elements";
    "        - Flag potential readability issues";
    "        ";
    "        4. Specific Recommendations:";
    "        - Layout improvements";
    "        - Formatting fixes";
    "        - Design enhancements";
    "        ";
    "        Format the response as a JSON object with these exact fields:";
    "        {";
    "            " +:+ q "layout_analysis" +:+ ": {";
    "                " +:+ q "strengths" +:+ ": [" +:+ q "strength1" +:+ ", " +:+ q "strength2" +:+ "],";
    "                " +:+ q "weaknesses" +:+ ": [" +:+ q "weakness1" +:+ ", " +:+ q "weakness2" +:+ "]";
    "            },";
    "            " +:+ q "formatting_issues" +:+ ": [";
    "                {" +:+ q "issue" +:+ ": " +:+ q "description" +:+ ", " +:+ q "severity" +:+ ": " +:+ q "high/medium/low" +:+ ", " +:+ q "fix" +:+ ": " +:+ q "solution" +:+ "}";
    "            ],";
    "            " +:+ q "design_recommendations" +:+ ": [";
    "                {" +:+ q "area" +:+ ": " +:+ q "area name" +:+ ", " +:+ q "suggestion" +:+ ": " +:+ q "improvement suggestion" +:+ ", " +:+ q "impact" +:+ ": " +:+ q "high/medium/low" +:+ "}";
    "            ]";
    "        }";
    "        "
  ].

(** The prompt of [generate_candidate_summary] (lines 456-475). *)
Definition summary_prompt : string :=
  PyStr.lines [
    EmptyString;
    "        Generate a professional candidate summary based on the resume. The summary should:";
    "        1. Highlight key qualifications";
    "        2. Emphasize relevant skills";
    "        3. Showcase major achievements";
    "        4. Present experience level";
    "        5. Include career focus";
    "        ";
    "        Format the response as a JSON object with these exact fields:";
    "        {";
    "            " +:+ q "professional_summary" +:+ ": " +:+ q "A concise 2-3 sentence overview" +:+ ",";
    "            " +:+ q "key_qualifications" +:+ ": [" +:+ q "qualification1" +:+ ", " +:+ q "qualification2" +:+ "],";
    "            " +:+ q "core_skills" +:+ ": [" +:+ q "skill1" +:+ ", " +:+ q "skill2" +:+ "],";
    "            " +:+ q "major_achievements" +:+ ": [" +:+ q "achievement1" +:+ ", " +:+ q "achievement2" +:+ "],";
    "            " +:+ q "experience_level" +:+ ": " +:+ q "description" +:+ ",";
    "            " +:+ q "career_focus" +:+ ": " +:+ q "description";
    "        }";
    "        ";
    "        Keep the summary professional, concise, and impactful.";
    "        "
  ].

(** The prompt of [analyze_ai_enhancements] (lines 527-556). *)
Definition enhancement_prompt : string :=
  PyStr.lines [
    EmptyString;
    "        Analyze the resume for potential AI/ML enhancements and fine-tuning opportunities. Consider:";
    "        1. Domain-specific terminology and context";
    "        2. Industry-specific skills and requirements";
    "        3. Technical depth and complexity";
    "        4. Potential areas for model improvement";
    "        ";
    "        Format the response as a JSON object with these exact fields:";
    "        {";
    "            " +:+ q "domain_analysis" +:+ ": {";
    "                " +:+ q "primary_domain" +:+ ": " +:+ q "main industry/field" +:+ ",";
    "                " +:+ q "technical_depth" +:+ ": " +:+ q "assessment of technical complexity" +:+ ",";
    "                " +:+ q "specialized_terminology" +:+ ": [" +:+ q "term1" +:+ ", " +:+ q "term2" +:+ "]";
    "            },";
    "            " +:+ q "enhancement_opportunities" +:+ ": [";
    "                {";
    "                    " +:+ q "area" +:+ ": " +:+ q "specific area for improvement" +:+ ",";
    "                    " +:+ q "potential_impact" +:+ ": " +:+ q "high/medium/low" +:+ ",";
    "                    " +:+ q "suggestion" +:+ ": " +:+ q "specific enhancement suggestion";
    "                }";
    "            ],";
    "            " +:+ q "fine_tuning_recommendations" +:+ ": {";
    "                " +:+ q "dataset_suggestions" +:+ ": [" +:+ q "suggestion1" +:+ ", " +:+ q "suggestion2" +:+ "],";
    "                " +:+ q "model_improvements" +:+ ": [" +:+ q "improvement1" +:+ ", " +:+ q "improvement2" +:+ "],";
    "                " +:+ q "context_enhancements" +:+ ": [" +:+ q "enhancement1" +:+ ", " +:+ q "enhancement2" +:+ "]";
    "            }";
    "        }";
    "        ";
    "        Focus on practical, implementable improvements.";
    "        "
  ].

(* ===================================================================== *)
(** * The model gateway and the facet functions *)
(* ===================================================================== *)

(** [genai.GenerationConfig]. *)
Record generation_config : Type := {
  temperature : Q;
  top_p : Q;
  top_k : Z
}.

(** One call of [model.generate_content]: the model name, the generation
    parameters when given, and the text parts sent. *)
Record request : Type := {
  model_name : string;
  config : option generation_config;
  contents : list string
}.

(** A computation over a state [S] that returns a value or raises. The
    state survives an exception. *)
Definition M (S A : Type) : Type := S -> result A * S.

Definition ret {S A : Type} (a : A) : M S A := fun s => (Ok a, s).

Definition raise {S A : Type} (e : exn) : M S A := fun s => (Raise e, s).

Definition mbind {S A B : Type} (m : M S A) (k : A -> M S B) : M S B :=
  fun s =>
    match m s with
    | (Ok a, s') => k a s'
    | (Raise e, s') => (Raise e, s')
    end.

(** [try: m  except Exception as e: handler e]. *)
Definition try_except {S A : Type} (m : M S A) (handler : exn -> M S A) : M S A :=
  fun s =>
    match m s with
    | (Ok a, s') => (Ok a, s')
    | (Raise e, s') => handler e s'
    end.

Definition lift {S A : Type} (r : result A) : M S A := fun s => (r, s).

Notation "'run' x <- e ; k" := (mbind e (fun x => k))
  (at level 10, x name, e at level 100, k at level 200).

(** A template whose fields are all within the model of [str.format]; the
    last case is never met by the templates of this file. *)
Definition formatted (o : PyStr.format_outcome) : result string :=
  match o with
  | PyStr.Formatted s => Ok s
  | PyStr.FormatRaises e => Raise e
  | PyStr.BeyondModel => Raise ValueError
  end.

(** [for field, default in required_fields.items():
       if field not in result: result[field] = default]. *)
Fixpoint fill_missing (required_fields : list (string * value)) (res : value)
    : result value :=
  match required_fields with
  | [] => Ok res
  | (field, default) :: required_fields' =>
      do present <- Py.contains field res;
      if present then fill_missing required_fields' res
      else
        do res' <- Py.setitem res field default;
        fill_missing required_fields' res'
  end.

Definition default_personal_info : list (string * value) :=
  [("name", VStr ""); ("email", VStr ""); ("phone", VStr ""); ("location", VStr "")].

Definition default_data_entries : list (string * value) :=
  [("personal_info", VDict default_personal_info);
   ("skills", VList []);
   ("education", VList []);
   ("experience", VList []);
   ("certifications", VList [])].

Definition default_data : value := VDict default_data_entries.

(** [parsed_data.setdefault("personal_info", {})[field] = ""]: the entry
    is created when missing, and the assignment goes to the object the
    dictionary holds. *)
Definition set_personal_field (parsed_data : value) (field : string) : result value :=
  match parsed_data with
  | VDict entries =>
      let info :=
        match Py.dict_lookup entries "personal_info" with
        | Some x => x
        | None => VDict []
        end in
      do info' <- Py.setitem info field (VStr "");
      Ok (VDict (Py.dict_set entries "personal_info" info'))
  | _ => Raise AttributeError
  end.

(** [for field in default_data["personal_info"]: ...] (lines 165-167). *)
Fixpoint fill_personal_info (fields : list string) (parsed_data : value)
    : result value :=
  match fields with
  | [] => Ok parsed_data
  | field :: fields' =>
      do info <- Py.get parsed_data "personal_info" (VDict []);
      do present <- Py.contains field info;
      if present then fill_personal_info fields' parsed_data
      else
        do parsed_data' <- set_personal_field parsed_data field;
        fill_personal_info fields' parsed_data'
  end.

(** Lines 159-169 of [extract_resume_data]. *)
Definition reconcile_resume_data (parsed_data : value) : result value :=
  do parsed_data <- fill_missing default_data_entries parsed_data;
  fill_personal_info (map fst default_personal_info) parsed_data.

Definition layout_required_fields : list (string * value) :=
  [("layout_analysis", VDict [("strengths", VList []); ("weaknesses", VList [])]);
   ("formatting_issues", VList []);
   ("design_recommendations", VList [])].

Definition summary_required_fields : list (string * value) :=
  [("professional_summary", VStr "");
   ("key_qualifications", VList []);
   ("core_skills", VList []);
   ("major_achievements", VList []);
   ("experience_level", VStr "");
   ("career_focus", VStr "")].

Definition enhancement_required_fields : list (string * value) :=
  [("domain_analysis",
    VDict [("primary_domain", VStr ""); ("technical_depth", VStr "");
           ("specialized_terminology", VList [])]);
   ("enhancement_opportunities", VList []);
   ("fine_tuning_recommendations",
    VDict [("dataset_suggestions", VList []); ("model_improvements", VList []);
           ("context_enhancements", VList [])])].

Definition gemini : string := "gemini-1.5-flash".

(** The configuration of the layout, summary and enhancement facets. *)
Definition creative_config : generation_config :=
  {| temperature := 7 # 10; top_p := 8 # 10; top_k := 40 |}.

(** The configuration of the extraction facet ([safety_config]). *)
Definition safety_config : generation_config :=
  {| temperature := 1 # 10; top_p := 8 # 10; top_k := 40 |}.

(** The variables of the button handler (lines 689-1108) that hold
    results: [None] while a variable has not been assigned. Each holds its
    object as it reads at that point of the run; the one list that two
    variables reach, the skills of [resume_data], is written through both
    by [recommend]. *)
Module Locals.

Record t : Type := {
  resume_data : option value;
  analysis : option value;
  ats : option (Q * gset string);
  candidate_summary : option value;
  ai_enhancements : option value;
  layout_analysis : option value;
  skills : option value;
  courses : option value
}.

Definition empty : t :=
  {| resume_data := None; analysis := None; ats := None;
     candidate_summary := None; ai_enhancements := None;
     layout_analysis := None; skills := None; courses := None |}.

Definition set_resume_data (v : value) (b : t) : t :=
  {| resume_data := Some v; analysis := analysis b; ats := ats b;
     candidate_summary := candidate_summary b; ai_enhancements := ai_enhancements b;
     layout_analysis := layout_analysis b; skills := skills b; courses := courses b |}.

Definition set_analysis (v : value) (b : t) : t :=
  {| resume_data := resume_data b; analysis := Some v; ats := ats b;
     candidate_summary := candidate_summary b; ai_enhancements := ai_enhancements b;
     layout_analysis := layout_analysis b; skills := skills b; courses := courses b |}.

Definition set_ats (v : Q * gset string) (b : t) : t :=
  {| resume_data := resume_data b; analysis := analysis b; ats := Some v;
     candidate_summary := candidate_summary b; ai_enhancements := ai_enhancements b;
     layout_analysis := layout_analysis b; skills := skills b; courses := courses b |}.

Definition set_candidate_summary (v : value) (b : t) : t :=
  {| resume_data := resume_data b; analysis := analysis b; ats := ats b;
     candidate_summary := Some v; ai_enhancements := ai_enhancements b;
     layout_analysis := layout_analysis b; skills := skills b; courses := courses b |}.

Definition set_ai_enhancements (v : value) (b : t) : t :=
  {| resume_data := resume_data b; analysis := analysis b; ats := ats b;
     candidate_summary := candidate_summary b; ai_enhancements := Some v;
     layout_analysis := layout_analysis b; skills := skills b; courses := courses b |}.

Definition set_layout_analysis (v : value) (b : t) : t :=
  {| resume_data := resume_data b; analysis := analysis b; ats := ats b;
     candidate_summary := candidate_summary b; ai_enhancements := ai_enhancements b;
     layout_analysis := Some v; skills := skills b; courses := courses b |}.

Definition set_skills (v : value) (b : t) : t :=
  {| resume_data := resume_data b; analysis := analysis b; ats := ats b;
     candidate_summary := candidate_summary b; ai_enhancements := ai_enhancements b;
     layout_analysis := layout_analysis b; skills := Some v; courses := courses b |}.

Definition set_courses (v : value) (b : t) : t :=
  {| resume_data := resume_data b; analysis := analysis b; ats := ats b;
     candidate_summary := candidate_summary b; ai_enhancements := ai_enhancements b;
     layout_analysis := layout_analysis b; skills := skills b; courses := Some v |}.

End Locals.

(* ===================================================================== *)
(** * Rendering: the operations of the display code that can raise *)
(* ===================================================================== *)

Fixpoint for_each {A : Type} (body : A -> result unit) (l : list A) : result unit :=
  match l with
  | [] => Ok tt
  | x :: l' => do _ <- body x; for_each body l'
  end.

(** [for x in v: body]. *)
Definition iterate (v : value) (body : value -> result unit) : result unit :=
  do items <- Py.iter v; for_each body items.

Definition shown : value -> result unit := fun _ => Ok tt.

(** [for x in v[key]: st.markdown(...)]. *)
Definition show_items (v : value) (key : string) : result unit :=
  do items <- Py.getitem v key; iterate items shown.

(** [if c: body]. *)
Definition when (c : bool) (body : result unit) : result unit :=
  if c then body else Ok tt.

(** One education entry (lines 201-208). *)
Definition display_education (edu : value) : result unit :=
  do vals <- Py.values edu;
  when (existsb Py.truthy vals)
    (do _ <- Py.get edu "degree" (VStr "Degree");
     do _ <- Py.get edu "institution" (VStr "N/A");
     do _ <- Py.get edu "year" (VStr "N/A");
     do _ <- Py.get edu "gpa" (VStr "N/A");
     Ok tt).

(** One experience entry (lines 214-223). *)
Definition display_experience (exp : value) : result unit :=
  do vals <- Py.values exp;
  when (existsb Py.truthy vals)
    (do _ <- Py.get exp "title" (VStr "Position");
     do _ <- Py.get exp "company" (VStr "Company");
     do _ <- Py.get exp "duration" (VStr "N/A");
     do resp <- Py.get exp "responsibilities" VNone;
     when (Py.truthy resp) (show_items exp "responsibilities")).

(** Lines 181-230. *)
Definition display_resume_data (resume_data : value) : result unit :=
  if negb (Py.truthy resume_data) then Ok tt
  else
    do skills <- Py.get resume_data "skills" (VList []);
    do _ <- when (Py.truthy skills) (do _ <- Py.join ", " skills; Ok tt);
    do education <- Py.get resume_data "education" (VList []);
    do _ <- when (Py.truthy education) (iterate education display_education);
    do experience <- Py.get resume_data "experience" (VList []);
    do _ <- when (Py.truthy experience) (iterate experience display_experience);
    do certifications <- Py.get resume_data "certifications" (VList []);
    when (Py.truthy certifications) (iterate certifications shown).

(** The body of [if candidate_summary:] (lines 725-795). *)
Definition display_candidate_summary (candidate_summary : value) : result unit :=
  do _ <- Py.getitem candidate_summary "professional_summary";
  do _ <- show_items candidate_summary "key_qualifications";
  do _ <- show_items candidate_summary "core_skills";
  do _ <- show_items candidate_summary "major_achievements";
  do _ <- Py.getitem candidate_summary "experience_level";
  do _ <- Py.getitem candidate_summary "career_focus";
  Ok tt.

(** A card with a lower-cased level and two texts: an enhancement
    opportunity, a formatting issue or a design recommendation. *)
Definition display_card (level first second : string) (card : value) : result unit :=
  do lv <- Py.getitem card level;
  do _ <- Py.lower lv;
  do _ <- Py.getitem card first;
  do _ <- Py.getitem card second;
  Ok tt.

(** The body of [if ai_enhancements:] (lines 804-887). *)
Definition display_ai_enhancements (ai_enhancements : value) : result unit :=
  do domain <- Py.getitem ai_enhancements "domain_analysis";
  do _ <- Py.getitem domain "primary_domain";
  do _ <- Py.getitem domain "technical_depth";
  do terms <- Py.getitem domain "specialized_terminology";
  do _ <- Py.join ", " terms;
  do opportunities <- Py.getitem ai_enhancements "enhancement_opportunities";
  do _ <- iterate opportunities (display_card "potential_impact" "area" "suggestion");
  do tuning <- Py.getitem ai_enhancements "fine_tuning_recommendations";
  do _ <- show_items tuning "dataset_suggestions";
  do _ <- show_items tuning "model_improvements";
  show_items tuning "context_enhancements".

(** The body of [if layout_analysis:] (lines 896-968 and 1036-1108). *)
Definition display_layout_analysis (layout_analysis : value) : result unit :=
  do layout <- Py.getitem layout_analysis "layout_analysis";
  do _ <- show_items layout "strengths";
  do _ <- show_items layout "weaknesses";
  do issues <- Py.getitem layout_analysis "formatting_issues";
  do _ <- iterate issues (display_card "severity" "issue" "fix");
  do recs <- Py.getitem layout_analysis "design_recommendations";
  iterate recs (display_card "impact" "area" "suggestion").

(** [for title, url in courses]: every item unpacks into two. *)
Definition display_course (course : value) : result unit :=
  do pair <- Py.iter course;
  if (length pair =? 2)%nat then Ok tt else Raise ValueError.

(** [skills.extend(items)]: a list method. *)
Definition extend (skills : value) (items : list value) : result value :=
  match skills with
  | VList l => Ok (VList (l ++ items))
  | _ => Raise AttributeError
  end.

(** A dictionary as it reads once the list it holds under [key] has been
    changed in place into [items]: the dictionary holds the list itself,
    not a copy of it. *)
Definition holding (d : value) (key : string) (items : value) : value :=
  match d with
  | VDict entries => VDict (Py.dict_set entries key items)
  | _ => d
  end.

Section Facets.

(** The state of the remote service. *)
Context {World : Type}.

(** Building the client, [model.generate_content(...)] and reading
    [response.text], as one step: the reply text, or [None] when any of
    the three raises. All three stand inside the same [try] block in every
    facet, and building the client sends nothing. *)
Variable generate_content : request -> World -> option string * World.

(** [json.loads]; [None] is [json.JSONDecodeError]. *)
Variable json_loads : string -> option value.

Definition call_model (req : request) : M World string :=
  fun w =>
    match generate_content req w with
    | (Some text, w') => (Ok text, w')
    | (None, w') => (Raise ServiceError, w')
    end.

(** Lines 61-94. *)
Definition analyze_resume (resume_text job_description : string) : M World value :=
  if PyStr.is_empty resume_text then
    ret (VDict [("error", VStr "Resume text is required for analysis.")])
  else
    try_except
      (let base_prompt :=
         if PyStr.is_empty job_description then analysis_prompt
         else analysis_prompt +:+ analysis_prompt_job in
       run prompt <- lift (formatted (PyStr.format base_prompt
                             [("resume_text", resume_text);
                              ("job_description", job_description)]));
       run text <- call_model
                     {| model_name := gemini; config := None; contents := [prompt] |};
       ret (VStr (PyStr.strip text)))
      (fun _ => ret VNone).

(** Lines 96-178. *)
Definition extract_resume_data (resume_text : string) : M World value :=
  if PyStr.is_empty resume_text then ret default_data
  else
    try_except
      (run prompt <- lift (formatted (PyStr.format extraction_prompt
                             [("resume_text", resume_text)]));
       run text <- call_model
                     {| model_name := gemini; config := Some safety_config;
                        contents := [prompt] |};
       run response_text <- lift (extract text);
       match json_loads response_text with
       | Some parsed_data => lift (reconcile_resume_data parsed_data)
       | None => ret default_data
       end)
      (fun _ => ret default_data).

(** Lines 305-357. *)
Definition analyze_soft_skills_and_sentiment (resume_text : string) : M World value :=
  try_except
    (run prompt <- lift (formatted (PyStr.format soft_skills_prompt
                           [("text", resume_text)]));
     run text <- call_model
                   {| model_name := gemini; config := None; contents := [prompt] |};
     run response_text <- lift (extract text);
     match json_loads response_text with
     | Some parsed => ret parsed
     | None => raise ValueError
     end)
    (fun _ => ret VNone).

(** [prompt += "\nJob Description:\n" + job_description] when there is a
    job description. *)
Definition with_job (prompt job_description : string) : string :=
  if PyStr.is_empty job_description then prompt
  else prompt +:+ PyStr.nl +:+ "Job Description:" +:+ PyStr.nl +:+ job_description.

(** The second text part of the layout, summary and enhancement requests. *)
Definition resume_part (resume_text : string) : string :=
  "Resume text:" +:+ PyStr.nl +:+ resume_text.

(** Lines 359-444. The inner handler (JSONDecodeError) and the outer one
    both return None. *)
Definition analyze_resume_layout (resume_text : string) : M World value :=
  if PyStr.is_empty resume_text then ret VNone
  else
    try_except
      (run text <- call_model
                     {| model_name := gemini; config := Some creative_config;
                        contents := [layout_prompt; resume_part resume_text] |};
       run response_text <- lift (extract text);
       match json_loads response_text with
       | Some res => lift (fill_missing layout_required_fields res)
       | None => ret VNone
       end)
      (fun _ => ret VNone).

(** Lines 446-515. *)
Definition generate_candidate_summary (resume_text job_description : string)
    : M World value :=
  try_except
    (let prompt := with_job summary_prompt job_description in
     run text <- call_model
                   {| model_name := gemini; config := Some creative_config;
                      contents := [prompt; resume_part resume_text] |};
     run response_text <- lift (extract text);
     match json_loads response_text with
     | Some res => lift (fill_missing summary_required_fields res)
     | None => ret VNone
     end)
    (fun _ => ret VNone).

(** Lines 517-601. *)
Definition analyze_ai_enhancements (resume_text job_description : string)
    : M World value :=
  try_except
    (let prompt := with_job enhancement_prompt job_description in
     run text <- call_model
                   {| model_name := gemini; config := Some creative_config;
                      contents := [prompt; resume_part resume_text] |};
     run response_text <- lift (extract text);
     match json_loads response_text with
     | Some res => lift (fill_missing enhancement_required_fields res)
     | None => ret VNone
     end)
    (fun _ => ret VNone).

(** The shape the three functions above share: send the prompt and the
    resume, strip the fences, decode, fill the missing top-level fields
    ([layout_is_schema_facet], [summary_is_schema_facet],
    [enhancements_is_schema_facet]). *)
Definition schema_facet (prompt resume_text : string)
    (required_fields : list (string * value)) : M World value :=
  try_except
    (run text <- call_model
                   {| model_name := gemini; config := Some creative_config;
                      contents := [prompt; resume_part resume_text] |};
     run response_text <- lift (extract text);
     match json_loads response_text with
     | Some res => lift (fill_missing required_fields res)
     | None => ret VNone
     end)
    (fun _ => ret VNone).

(** [Courses.recommend_courses], a module of the repository that is not
    among the sources. *)
Variable recommend_courses : value -> result value.

(** The button handler runs over the remote service and its own
    variables. *)
Definition facet {A : Type} (m : M World A) : M (World * Locals.t) A :=
  fun s =>
    let '(r, w') := m (fst s) in (r, (w', snd s)).

Definition assign (f : Locals.t -> Locals.t) : M (World * Locals.t) unit :=
  fun s => (Ok tt, (fst s, f (snd s))).

(** Lines 973-1006: the skills sent to the course recommender, and its
    answer. When [resume_data] has the key, [skills] names the very list
    that [resume_data] holds, so [skills.extend] lengthens that list and
    the variable [resume_data] reads the longer list from then on. A Python
    set gives its items in no fixed order; [elements] is one order. *)
Definition recommend (resume_data : value) (job_description : string)
    : M (World * Locals.t) unit :=
  run _ <- assign (Locals.set_skills (VList []));
  run held <- lift (if Py.truthy resume_data then Py.contains "skills" resume_data
                    else Ok false);
  run skills <-
    (if held then
       run skills <- lift (Py.getitem resume_data "skills");
       run _ <- assign (Locals.set_skills skills);
       ret skills
     else ret (VList []));
  run skills <-
    (if PyStr.is_empty job_description then ret skills
     else
       run skills <- lift (extend skills
                             (map VStr (elements (word_set job_description))));
       run _ <- assign (Locals.set_skills skills);
       run _ <- assign (if held
                        then Locals.set_resume_data (holding resume_data "skills" skills)
                        else id);
       ret skills);
  if Py.truthy skills then
    run courses <- lift (recommend_courses skills);
    run _ <- assign (Locals.set_courses courses);
    lift (when (Py.truthy courses) (iterate courses display_course))
  else ret tt.

(** Lines 892-968 and 1032-1108. *)
Definition layout_section (resume_text : string) : M (World * Locals.t) unit :=
  run layout_analysis <- facet (analyze_resume_layout resume_text);
  run _ <- assign (Locals.set_layout_analysis layout_analysis);
  lift (when (Py.truthy layout_analysis) (display_layout_analysis layout_analysis)).

(** The body of [if analysis:] (lines 700-1108), after the evaluation
    and the score are drawn. The calls that draw on the page and cannot
    raise are left out; [st.progress(ats_score / 100)] is among them, the
    score being within [0, 100]. *)
Definition analysis_details (resume_text job_description : string)
    (resume_data : value) : M (World * Locals.t) unit :=
  run candidate_summary <- facet (generate_candidate_summary resume_text job_description);
  run _ <- assign (Locals.set_candidate_summary candidate_summary);
  run _ <- lift (when (Py.truthy candidate_summary)
                   (display_candidate_summary candidate_summary));
  run ai_enhancements <- facet (analyze_ai_enhancements resume_text job_description);
  run _ <- assign (Locals.set_ai_enhancements ai_enhancements);
  run _ <- lift (when (Py.truthy ai_enhancements)
                   (display_ai_enhancements ai_enhancements));
  run _ <- layout_section resume_text;
  run _ <- recommend resume_data job_description;
  layout_section resume_text.

(** The body of the [try] block of the button handler (lines 690-1108). *)
Definition analysis_run (resume_text job_description : string)
    : M (World * Locals.t) unit :=
  run resume_data <- facet (extract_resume_data resume_text);
  run _ <- assign (Locals.set_resume_data resume_data);
  run _ <- lift (display_resume_data resume_data);
  run analysis <- facet (analyze_resume resume_text job_description);
  run _ <- assign (Locals.set_analysis analysis);
  run score <- lift (calculate_ats_score resume_text job_description);
  run _ <- assign (Locals.set_ats score);
  if Py.truthy analysis then analysis_details resume_text job_description resume_data
  else ret tt.

(** The handler with its [except Exception] (lines 1110-1111): the
    variables as they stand at the end, whether the run reached its end,
    and the state of the service. *)
Definition analyze_clicked (resume_text job_description : string) (w : World)
    : Locals.t * bool * World :=
  match analysis_run resume_text job_description (w, Locals.empty) with
  | (Ok _, (w', b)) => (b, true, w')
  | (Raise _, (w', b)) => (b, false, w')
  end.

End Facets.

(* ===================================================================== *)
(** * Definitions used to state the properties *)
(* ===================================================================== *)

(** The share of the job-description tokens that are found, as a
    percentage in Python's float arithmetic, and 0 for an empty token set
    of the job description: the unrounded overlap score. *)
Definition overlap_score (found jd_words : gset string) : Q :=
  if decide (jd_words = ∅) then 0%Q
  else PyNum.mul
         (PyNum.quotient (Z.of_nat (size (jd_words ∩ found)))
                         (Z.of_nat (size jd_words)))
         100.

(** The scenario of the specification. *)
Definition scenario_resume : string :=
  "Experienced Python developer with AWS and Docker skills".
Definition scenario_job : string :=
  "Looking for Python AWS Kubernetes engineer".

(** A remote model that answers every request with [reply]. *)
Definition always_replies (reply : string) : request -> unit -> option string * unit :=
  fun _ w => (Some reply, w).


(** A course recommender with no course to recommend. *)
Definition no_courses : value -> result value := fun _ => Ok (VList []).

(** A reply whose key_qualifications is a number. *)
Definition number_for_list_reply : string :=
  "{" +:+ PyStr.quoted "key_qualifications" +:+ ": 5}".

(** A reply with an empty [domain_analysis] object. *)
Definition empty_domain_reply : string :=
  "{" +:+ PyStr.quoted "domain_analysis" +:+ ": {}}".

(** What the reconciliation loop guarantees of a facet result: it is None,
    or every top-level key of the schema is in it, and can be read when
    the result is a dictionary. *)
Definition none_or_complete (required_fields : list (string * value)) (r : value) : Prop :=
  r = VNone \/
  forall key, In key (map fst required_fields) ->
    Py.contains key r = Ok true /\
    (forall entries, r = VDict entries -> exists x, Py.getitem r key = Ok x).


(** The tokens of the job description as a list of strings, each token
    once, in whatever order. *)
Definition job_tokens (job_description : string) (skills : value) : Prop :=
  exists l, skills = VList (map VStr l) /\ NoDup l /\
            forall x, In x l <-> x ∈ word_set job_description.



(** [sep] occurs in [s] at position [i]. *)
Definition occurs_at (sep : string) (i : nat) (s : string) : Prop :=
  exists p q, s = p +:+ sep +:+ q /\ String.length p = i.

(** The leftmost occurrence of [sep] in [s] is at position [i]. *)
Definition first_at (sep : string) (i : nat) (s : string) : Prop :=
  occurs_at sep i s /\ forall j, occurs_at sep j s -> (i <= j)%nat.

(** [sep] does not occur in [s]. *)
Definition absent (sep s : string) : Prop := forall j, ~ occurs_at sep j s.

(** [sep] occurs somewhere in [s]: [sep in s]. *)
Definition occurs (sep s : string) : Prop := exists j, occurs_at sep j s.

(** The text before the first [sep], the whole text when there is none:
    [s.split(sep)[0]]. *)
Definition before (sep s : string) : string :=
  match PyStr.find sep s with
  | Some i => PyStr.take i s
  | None => s
  end.

(** A reply with a second json fence right behind a backtick. *)
Definition overlapping_fences_reply : string := "```json x````json y```".

(** The reply of the specification's example: a JSON object inside a json
    fence. *)
Definition fenced_object : string := "{" +:+ PyStr.quoted "a" +:+ ":1}".
Definition fenced_object_reply : string :=
  "```json" +:+ PyStr.nl +:+ fenced_object +:+ PyStr.nl +:+ "```".

(** Every character of [s] satisfies [f]. *)
Fixpoint all_chars (f : ascii -> bool) (s : string) : bool :=
  match s with
  | EmptyString => true
  | String c s' => f c && all_chars f s'
  end.

(** The characters of [s] that satisfy [f], in order. *)
Fixpoint filter_chars (f : ascii -> bool) (s : string) : string :=
  match s with
  | EmptyString => EmptyString
  | String c s' => if f c then String c (filter_chars f s') else filter_chars f s'
  end.

Definition not_space (c : ascii) : bool := negb (PyStr.isspace c).

(** A word: not empty, and without whitespace. *)
Definition is_word (w : string) : Prop :=
  w <> EmptyString /\ all_chars not_space w = true.

(* ===================================================================== *)
(** * Proof steps for the handler *)
(* ===================================================================== *)


(** The variables of the handler, read off a record built by setters. *)
Ltac read_locals :=
  split; [reflexivity|]; split; [reflexivity|]; split; [reflexivity|].


(* ===================================================================== *)
(** * The Python operations on sample inputs *)
(* ===================================================================== *)

Example split_ws_sample :
  PyStr.split_ws "  Looking for   Python AWS " = ["Looking"; "for"; "Python"; "AWS"].
Proof. reflexivity. Qed.

Example strip_sample : PyStr.strip "  a b  " = "a b".
Proof. reflexivity. Qed.

Example split_sample :
  PyStr.split "```" "a```b```" = ["a"; "b"; ""] /\ PyStr.split "```" "````x" = [""; "`x"].
Proof. split; reflexivity. Qed.

(** Plain fields are replaced, doubled braces are literal braces. *)
Example format_sample :
  PyStr.format "Dear {name}, {{as is}}" [("name", "Ann")]
  = PyStr.Formatted "Dear Ann, {as is}".
Proof. reflexivity. Qed.

(** A literal brace opens a field: its name runs to the colon. *)
Example format_literal_brace :
  PyStr.format "{ a: 1 } {name}" [("name", "Ann")]
  = PyStr.FormatRaises (KeyError " a").
Proof. reflexivity. Qed.

Example format_single_brace :
  PyStr.format "a } {name}" [("name", "Ann")] = PyStr.FormatRaises ValueError /\
  PyStr.format "{} {name}" [("name", "Ann")] = PyStr.FormatRaises IndexError.
Proof. split; reflexivity. Qed.

Example loads_sample :
  Json.loads ("{" +:+ PyStr.quoted "skills" +:+ ": [" +:+ PyStr.quoted "x"
              +:+ ", 2, 1.5, null]}")
  = Some (VDict [("skills", VList [VStr "x"; VInt 2; VFloat (3 # 2); VNone])]).
Proof. vm_compute. reflexivity. Qed.

(* ===================================================================== *)
(** * Facts about the binary64 rounding *)
(* ===================================================================== *)

Module PyNumFacts.
Import PyNum.

Lemma rhe_div_le (n d N : Z) : 0 < d -> n <= N * d -> rhe_div n d <= N.
Proof.
  intros Hd Hn. unfold rhe_div.
  pose proof (Z.div_mod n d ltac:(lia)) as Hdm.
  pose proof (Z.mod_pos_bound n d Hd) as Hr.
  assert (Hq : n / d <= N) by (apply Z.div_le_upper_bound; lia).
  destruct (Z.compare_spec (2 * (n mod d)) d); try lia.
  - destruct (Z.even (n / d)); nia.
  - nia.
Qed.

Lemma rhe_div_ge (n d N : Z) : 0 < d -> N * d <= n -> N <= rhe_div n d.
Proof.
  intros Hd Hn. unfold rhe_div.
  assert (Hq : N <= n / d) by (apply Z.div_le_lower_bound; lia).
  destruct (2 * (n mod d) ?= d); try lia.
  destruct (Z.even (n / d)); lia.
Qed.

Lemma Qrhe_le (x : Q) (N : Z) : (x <= inject_Z N)%Q -> Qrhe x <= N.
Proof.
  intros H. unfold Qrhe. apply rhe_div_le; [lia|].
  rewrite <- (Qred_correct x) in H. unfold Qle in H. simpl in H. lia.
Qed.

Lemma Qrhe_ge (x : Q) (N : Z) : (inject_Z N <= x)%Q -> N <= Qrhe x.
Proof.
  intros H. unfold Qrhe. apply rhe_div_ge; [lia|].
  rewrite <- (Qred_correct x) in H. unfold Qle in H. simpl in H. lia.
Qed.

Lemma pow2_pos (k : Z) : 0 <= k -> 0 < 2 ^ k.
Proof. intros. apply Z.pow_pos_nonneg; lia. Qed.

(** [Qshift] by a non-negative amount multiplies by a power of two. *)
Lemma Qshift_up (x : Q) (k : Z) :
  0 <= k -> (Qshift x k == x * inject_Z (2 ^ k))%Q.
Proof.
  intros Hk. unfold Qshift. destruct (Z.leb_spec 0 k); [|lia].
  unfold Qeq, Qmult, inject_Z. simpl. lia.
Qed.

(** [Qshift] by a negative amount divides by a power of two. *)
Lemma Qshift_down (x : Q) (k : Z) :
  k < 0 -> (Qshift x k * inject_Z (2 ^ (- k)) == x)%Q.
Proof.
  intros Hk. unfold Qshift. destruct (Z.leb_spec 0 k); [lia|].
  pose proof (pow2_pos (- k) ltac:(lia)) as Hp.
  unfold Qeq, Qmult, inject_Z. simpl.
  rewrite Pos.mul_1_r, Pos2Z.inj_mul, Z2Pos.id by lia. lia.
Qed.

Lemma Qshift_nonneg (x : Q) (k : Z) : (0 <= x)%Q -> (0 <= Qshift x k)%Q.
Proof.
  intros H. unfold Qshift, Qle in *. simpl in *.
  destruct (0 <=? k); simpl; [|lia].
  pose proof (Z.pow_nonneg 2 k ltac:(lia)). nia.
Qed.

(** The exponent of a positive rational below [2 ^ 53] is at most 52. *)
Lemma floor_log2_small (x : Q) (B : Z) :
  (0 < x)%Q -> (x <= inject_Z B)%Q -> B < 2 ^ 53 -> floor_log2 x <= 52.
Proof.
  intros Hpos Hle HB. destruct x as [a b].
  unfold Qlt, Qle in *. simpl in *.
  assert (Ha : 0 < a) by lia.
  assert (Hab : a < 2 ^ 53 * Zpos b) by nia.
  pose proof (Z.log2_spec a Ha) as [Hla _].
  pose proof (Z.log2_spec (Zpos b) ltac:(lia)) as [_ Hlb].
  pose proof (Z.log2_nonneg a). pose proof (Z.log2_nonneg (Zpos b)).
  assert (He0 : Z.log2 a - Z.log2 (Zpos b) <= 53).
  { destruct (Z.le_gt_cases (Z.log2 a - Z.log2 (Zpos b)) 53) as [|Hgt]; [done|].
    exfalso.
    assert (Hpw : 2 ^ (53 + Z.succ (Z.log2 (Zpos b))) <= 2 ^ Z.log2 a)
      by (apply Z.pow_le_mono_r; lia).
    rewrite Z.pow_add_r in Hpw by lia.
    generalize dependent (2 ^ Z.succ (Z.log2 (Z.pos b))).
    generalize dependent (2 ^ Z.log2 a). intros. lia. }
  unfold floor_log2. cbn [Qnum Qden].
  set (e0 := Z.log2 a - Z.log2 (Zpos b)) in *.
  destruct (Qle_bool 1 (Qshift (a # b) (- e0))) eqn:Hc; [|lia].
  destruct (Z.le_gt_cases e0 52) as [|Hgt]; [done|]. exfalso.
  assert (e0 = 53) by lia.
  apply Qle_bool_iff in Hc.
  assert (Hd := Qshift_down (a # b) (- e0) ltac:(lia)).
  rewrite Z.opp_involutive in Hd.
  assert (H53 : (inject_Z (2 ^ e0) <= a # b)%Q).
  { rewrite <- Hd. rewrite <- (Qmult_1_l (inject_Z (2 ^ e0))) at 1.
    apply Qmult_le_compat_r; [done|].
    unfold Qle, inject_Z; simpl. pose proof (pow2_pos e0 ltac:(lia)). lia. }
  unfold Qle, inject_Z in H53. simpl in H53. subst e0. rewrite H1 in H53. lia.
Qed.

Lemma Qshift_int_le (m B s : Z) :
  s <= 0 -> m <= B * 2 ^ (- s) -> (Qshift (inject_Z m) s <= inject_Z B)%Q.
Proof.
  intros Hs Hm. pose proof (pow2_pos (- s) ltac:(lia)) as Hp.
  unfold Qshift. destruct (Z.leb_spec 0 s).
  - assert (s = 0) by lia. subst s. unfold Qle, inject_Z. cbn in *. lia.
  - unfold Qle, inject_Z. cbn [Qnum Qden].
    rewrite Pos.mul_1_l, Z2Pos.id by lia. lia.
Qed.

Lemma fl_pos_bounds (x : Q) (B : Z) :
  (0 < x)%Q -> (x <= inject_Z B)%Q -> B < 2 ^ 53 ->
  (0 <= fl_pos x)%Q /\ (fl_pos x <= inject_Z B)%Q.
Proof.
  intros Hpos Hle HB. unfold fl_pos.
  pose proof (floor_log2_small x B Hpos Hle HB) as He.
  set (s := Z.max (floor_log2 x - 52) (-1074)).
  assert (Hs : s <= 0) by lia.
  pose proof (pow2_pos (- s) ltac:(lia)) as Hp.
  assert (Hup := Qshift_up x (- s) ltac:(lia)).
  rewrite !Qred_correct. split.
  - apply Qshift_nonneg. change 0%Q with (inject_Z 0).
    rewrite <- Zle_Qle. apply Qrhe_ge. rewrite Hup.
    apply Qmult_le_0_compat; [apply Qlt_le_weak; done|].
    change 0%Q with (inject_Z 0). rewrite <- Zle_Qle. lia.
  - apply Qshift_int_le; [done|]. apply Qrhe_le.
    rewrite Hup, inject_Z_mult.
    apply Qmult_le_compat_r; [done|].
    change 0%Q with (inject_Z 0). rewrite <- Zle_Qle. lia.
Qed.

(** Rounding keeps a number between zero and an integer below [2 ^ 53]:
    both bounds are binary64 values. *)
Lemma fl_bounds (x : Q) (B : Z) :
  (0 <= x)%Q -> (x <= inject_Z B)%Q -> B < 2 ^ 53 ->
  (0 <= fl x)%Q /\ (fl x <= inject_Z B)%Q.
Proof.
  intros H0 HB Hlt. unfold fl.
  pose proof (Qred_correct x) as Hred.
  destruct (Qnum (Qred x)) eqn:Hn.
  - split; [apply Qle_refl|]. eapply Qle_trans; eauto.
  - apply fl_pos_bounds; [|rewrite Hred; done|done].
    unfold Qlt. cbn. rewrite Hn. lia.
  - exfalso. rewrite <- Hred in H0. unfold Qle in H0. cbn in H0. lia.
Qed.

Lemma fl_Qeq (x y : Q) : (x == y)%Q -> fl x = fl y.
Proof. intros H. unfold fl. rewrite (Qred_complete x y H). reflexivity. Qed.

Lemma quotient_bounds (a b : Z) :
  0 <= a <= b -> 0 < b -> (0 <= quotient a b)%Q /\ (quotient a b <= 1)%Q.
Proof.
  intros Hab Hb. unfold quotient. apply (fl_bounds _ 1); [| |lia].
  - unfold Qle. cbn. lia.
  - unfold Qle, inject_Z. cbn. rewrite Z2Pos.id by lia. lia.
Qed.

Lemma quotient_self (n : Z) : 0 < n -> quotient n n = 1%Q.
Proof.
  intros Hn. unfold quotient. rewrite (fl_Qeq _ 1); [vm_compute; reflexivity|].
  unfold Qeq. cbn. rewrite Z2Pos.id by lia. lia.
Qed.

Lemma quotient_zero (n : Z) : quotient 0 n = 0%Q.
Proof.
  unfold quotient. rewrite (fl_Qeq _ 0); [reflexivity|]. unfold Qeq. cbn. lia.
Qed.

Lemma mul_100_bounds (x : Q) :
  (0 <= x)%Q -> (x <= 1)%Q -> (0 <= mul x 100)%Q /\ (mul x 100 <= 100)%Q.
Proof.
  intros H0 H1. unfold mul. apply (fl_bounds _ 100); [| |lia].
  - apply Qmult_le_0_compat; [done|]. unfold Qle; cbn; lia.
  - change (inject_Z 100) with (1 * 100)%Q. apply Qmult_le_compat_r; [done|].
    unfold Qle; cbn; lia.
Qed.

Lemma round2_bounds (x : Q) :
  (0 <= x)%Q -> (x <= 100)%Q -> (0 <= round2 x)%Q /\ (round2 x <= 100)%Q.
Proof.
  intros H0 H1. unfold round2.
  assert (Hlo : 0 <= Qrhe (x * 100)).
  { apply Qrhe_ge. apply Qmult_le_0_compat; [done|]. unfold Qle; cbn; lia. }
  assert (Hhi : Qrhe (x * 100) <= 10000).
  { apply Qrhe_le. change (inject_Z 10000) with (100 * 100)%Q.
    apply Qmult_le_compat_r; [done|]. unfold Qle; cbn; lia. }
  apply (fl_bounds _ 100); [| |lia]; unfold Qle, inject_Z; cbn; lia.
Qed.

(** A division by a positive int does not raise. *)
Lemma truediv_pos (a b : Z) : 0 < b -> truediv a b = Ok (quotient a b).
Proof. intros Hb. unfold truediv. destruct (Z.eqb_spec b 0); [lia|reflexivity]. Qed.

(** The model of binary64 rounding against the binary64 arithmetic of
    Rocq's kernel: a quotient, a product, a weighted sum, a tie and a
    subnormal number. *)
Example fl_agrees_with_binary64 :
  of_float (PrimFloat.div (to_float 2) (to_float 6)) = quotient 2 6 /\
  of_float (PrimFloat.mul (PrimFloat.div (to_float 2) (to_float 6)) (to_float 100))
  = mul (quotient 2 6) 100 /\
  of_float
    (PrimFloat.add
       (PrimFloat.mul
          (PrimFloat.mul (PrimFloat.div (to_float 7) (to_float 13)) (to_float 100))
          (PrimFloat.div (to_float 3) (to_float 10)))
       (PrimFloat.mul (to_float 60) (PrimFloat.div (to_float 4) (to_float 10))))
  = add (mul (mul (quotient 7 13) 100) (literal (3 # 10)))
        (mul 60 (literal (4 # 10))) /\
  of_float (to_float 9007199254740993) = fl 9007199254740993 /\
  of_float (PrimFloat.mul (PrimFloat.div (to_float 1) (to_float 3))
              (FloatOps.Z.ldexp PrimFloat.one (-1030)))
  = fl (fl (1 # 3) * Qshift 1 (-1030)).
Proof. vm_compute. repeat split. Qed.

End PyNumFacts.

(* ===================================================================== *)
(** * The keyword scorer *)
(* ===================================================================== *)

Lemma all_chars_snoc (f : ascii -> bool) (s : string) (c : ascii) :
  all_chars f (s +:+ String c EmptyString) = all_chars f s && f c.
Proof.
  induction s as [|x s IH].
  { change (EmptyString +:+ String c EmptyString) with (String c EmptyString).
    cbn. by destruct (f c). }
  change (String x s +:+ String c EmptyString)
    with (String x (s +:+ String c EmptyString)).
  cbn. rewrite IH. by rewrite andb_assoc.
Qed.

Lemma split_ws_go_words (cur s : string) :
  all_chars not_space cur = true ->
  forall w, In w (PyStr.split_ws_go cur s) -> is_word w.
Proof.
  revert cur. induction s as [|c s IH]; intros cur Hcur w; cbn.
  - destruct cur; cbn; [done|]. intros [<-|[]]. by split.
  - destruct (PyStr.isspace c) eqn:Hc.
    + rewrite in_app_iff. intros [Hin|Hin]; [|by apply (IH EmptyString)].
      destruct cur; cbn in Hin; [done|]. destruct Hin as [<-|[]]. by split.
    + apply IH. rewrite all_chars_snoc, Hcur. unfold not_space. by rewrite Hc.
Qed.

(** [str.split()] returns words: none is empty, none has whitespace. *)
Lemma split_ws_words (s w : string) : In w (PyStr.split_ws s) -> is_word w.
Proof. by apply split_ws_go_words. Qed.

Lemma filter_chars_app (f : ascii -> bool) (a b : string) :
  filter_chars f (a +:+ b) = filter_chars f a +:+ filter_chars f b.
Proof.
  induction a as [|x a IH]; [reflexivity|].
  change (String x a +:+ b) with (String x (a +:+ b)). cbn.
  destruct (f x); [|exact IH]. rewrite IH. reflexivity.
Qed.

Lemma filter_chars_all (f : ascii -> bool) (s : string) :
  all_chars f s = true -> filter_chars f s = s.
Proof.
  induction s as [|c s IH]; [reflexivity|]. cbn.
  intros [Hc Hs]%andb_true_iff. by rewrite Hc, IH.
Qed.

Lemma app_snoc_cons (cur : string) (c : ascii) (s : string) :
  (cur +:+ String c EmptyString) +:+ s = cur +:+ String c s.
Proof.
  induction cur as [|x cur IH]; [reflexivity|].
  change (String x cur +:+ String c EmptyString)
    with (String x (cur +:+ String c EmptyString)).
  change (String x (cur +:+ String c EmptyString) +:+ s)
    with (String x ((cur +:+ String c EmptyString) +:+ s)).
  change (String x cur +:+ String c s) with (String x (cur +:+ String c s)).
  by rewrite IH.
Qed.

Lemma split_ws_go_concat (cur s : string) :
  all_chars not_space cur = true ->
  fold_right String.append EmptyString (PyStr.split_ws_go cur s)
  = cur +:+ filter_chars not_space s.
Proof.
  revert cur. induction s as [|c s IH]; intros cur Hcur.
  - cbn [PyStr.split_ws_go filter_chars]. destruct cur; reflexivity.
  - cbn [PyStr.split_ws_go filter_chars].
    destruct (PyStr.isspace c) eqn:Hc.
    + assert (Hn : not_space c = false) by (unfold not_space; by rewrite Hc).
      rewrite Hn, fold_right_app, (IH EmptyString eq_refl).
      destruct cur; reflexivity.
    + assert (Hn : not_space c = true) by (unfold not_space; by rewrite Hc).
      rewrite Hn, IH.
      * apply app_snoc_cons.
      * by rewrite all_chars_snoc, Hcur, Hn.
Qed.

(** The words of [str.split()], put end to end, are the text without its
    whitespace. *)
Lemma split_ws_concat (s : string) :
  fold_right String.append EmptyString (PyStr.split_ws s) = filter_chars not_space s.
Proof. by apply split_ws_go_concat. Qed.

Lemma elem_of_word_set (text w : string) :
  w ∈ word_set text <->
  exists w0, In w0 (PyStr.split_ws text) /\ (2 < String.length w0)%nat /\ w = PyStr.lower w0.
Proof.
  unfold word_set. rewrite elem_of_list_to_set, list_elem_of_In, in_map_iff.
  split.
  - intros (w0 & <- & Hin). apply filter_In in Hin as [Hin Hlen].
    exists w0. split; [done|]. split; [|done]. by apply Nat.ltb_lt.
  - intros (w0 & Hin & Hlen & ->). exists w0. split; [done|].
    apply filter_In. split; [done|]. by apply Nat.ltb_lt.
Qed.

Lemma word_set_empty_text (text : string) :
  PyStr.is_empty text = true -> word_set text = ∅.
Proof. destruct text; [reflexivity|discriminate]. Qed.

Lemma nonempty_false (s : gset string) : nonempty s = false <-> s = ∅.
Proof.
  unfold nonempty. rewrite negb_false_iff, Nat.eqb_eq, size_empty_iff.
  by unfold_leibniz.
Qed.

Lemma size_nonzero (s : gset string) : s ≠ ∅ -> size s ≠ 0%nat.
Proof. intros Hne Hs. apply Hne. apply size_empty_iff in Hs. by unfold_leibniz. Qed.

Lemma nonempty_true (s : gset string) : nonempty s = true <-> s ≠ ∅.
Proof.
  rewrite <- nonempty_false. destruct (nonempty s); split; congruence.
Qed.

(** With a token in [b], [percent a b] divides by a positive length. *)
Lemma percent_eq (a b : gset string) :
  b ≠ ∅ ->
  percent a b
  = Ok (PyNum.mul (PyNum.quotient (Z.of_nat (size a)) (Z.of_nat (size b))) 100).
Proof.
  intros Hne. unfold percent. pose proof (size_nonzero b Hne).
  rewrite PyNumFacts.truediv_pos by lia. reflexivity.
Qed.

Lemma overlap_score_bounds (found jd_words : gset string) :
  (0 <= overlap_score found jd_words)%Q /\ (overlap_score found jd_words <= 100)%Q.
Proof.
  unfold overlap_score. destruct (decide _) as [|Hne].
  - split; unfold Qle; cbn; lia.
  - pose proof (size_nonzero jd_words Hne).
    pose proof (subseteq_size (jd_words ∩ found) jd_words
                  (intersection_subseteq_l _ _)).
    destruct (PyNumFacts.quotient_bounds (Z.of_nat (size (jd_words ∩ found)))
                (Z.of_nat (size jd_words))); [lia|lia|].
    by apply PyNumFacts.mul_100_bounds.
Qed.

Lemma overlap_score_none (jd_words : gset string) : overlap_score ∅ jd_words = 0%Q.
Proof.
  unfold overlap_score. destruct (decide _); [reflexivity|].
  rewrite intersection_empty_r_L, size_empty. change (Z.of_nat 0) with 0.
  rewrite PyNumFacts.quotient_zero. reflexivity.
Qed.

Lemma overlap_score_all (jd_words found : gset string) :
  jd_words ≠ ∅ -> jd_words ⊆ found -> overlap_score found jd_words = 100%Q.
Proof.
  intros Hne Hsub. unfold overlap_score. destruct (decide _); [done|].
  rewrite (subseteq_intersection_1_L jd_words found Hsub).
  pose proof (size_nonzero jd_words Hne).
  rewrite PyNumFacts.quotient_self by lia. vm_compute. reflexivity.
Qed.

(** The guarded percentage of both scorers. *)
Lemma guarded_percent_eq (found jd_words : gset string) :
  (if nonempty jd_words then percent (jd_words ∩ found) jd_words else Ok 0%Q)
  = Ok (overlap_score found jd_words).
Proof.
  unfold overlap_score. destruct (nonempty jd_words) eqn:Hne.
  - apply nonempty_true in Hne. destruct (decide _); [done|]. by apply percent_eq.
  - apply nonempty_false in Hne. by destruct (decide _).
Qed.

(** [calculate_ats_score] never raises, whichever branch is taken. *)
Lemma calculate_ats_score_eq (A B : string) :
  calculate_ats_score A B
  = Ok (PyNum.round2 (overlap_score (word_set A) (word_set B)),
        word_set A ∩ word_set B).
Proof.
  unfold calculate_ats_score.
  destruct (PyStr.is_empty A) eqn:HA; cbn [orb].
  { rewrite (word_set_empty_text A HA), overlap_score_none, intersection_empty_l_L.
    reflexivity. }
  destruct (PyStr.is_empty B) eqn:HB.
  { rewrite (word_set_empty_text B HB), intersection_empty_r_L.
    unfold overlap_score. by destruct (decide _). }
  rewrite (intersection_comm_L (word_set A)), guarded_percent_eq. reflexivity.
Qed.

Lemma round2_overlap_bounds (found jd_words : gset string) :
  (0 <= PyNum.round2 (overlap_score found jd_words))%Q /\
  (PyNum.round2 (overlap_score found jd_words) <= 100)%Q.
Proof.
  destruct (overlap_score_bounds found jd_words). by apply PyNumFacts.round2_bounds.
Qed.

(** C2. For all texts A (resume) and B (job description): a token qualifies
    when it is the lower-cased form of a whitespace-separated word of more
    than two characters; [calculate_ats_score] returns (it never divides by
    zero) the intersection of the two token sets as the matched set, and a
    percentage that is 0 when B has no qualifying token and otherwise
    [round((|A ∩ B| / |B|) * 100, 2)] in Python's float arithmetic; the
    percentage lies in [0, 100]. *)
Theorem calculate_ats_score_spec (A B : string) :
  (forall text w,
      w ∈ word_set text <->
      exists w0, In w0 (PyStr.split_ws text) /\ (2 < String.length w0)%nat
                 /\ w = PyStr.lower w0) /\
  exists percentage,
    calculate_ats_score A B = Ok (percentage, word_set A ∩ word_set B) /\
    percentage =
      (if decide (word_set B = ∅) then 0%Q
       else PyNum.round2
              (PyNum.mul
                 (PyNum.quotient (Z.of_nat (size (word_set A ∩ word_set B)))
                                 (Z.of_nat (size (word_set B))))
                 100)) /\
    (word_set B ≠ ∅ ->
     PyNum.truediv (Z.of_nat (size (word_set A ∩ word_set B)))
                   (Z.of_nat (size (word_set B)))
     = Ok (PyNum.quotient (Z.of_nat (size (word_set A ∩ word_set B)))
                          (Z.of_nat (size (word_set B))))) /\
    (0 <= percentage)%Q /\ (percentage <= 100)%Q.
Proof.
  split; [apply elem_of_word_set|].
  eexists. split; [apply calculate_ats_score_eq|]. split; [|split].
  - unfold overlap_score. rewrite (intersection_comm_L (word_set B)).
    destruct (decide _); [|reflexivity]. vm_compute. reflexivity.
  - intros Hne. apply PyNumFacts.truediv_pos. pose proof (size_nonzero _ Hne). lia.
  - apply round2_overlap_bounds.
Qed.

(** C3, as stated, fails: the word for has three characters and passes the
    filter [len(word) > 2], so the job description has six qualifying
    tokens, not five, and the percentage is not 40. *)
Lemma scenario_not_40 :
  (exists percentage matched,
     calculate_ats_score scenario_resume scenario_job = Ok (percentage, matched) /\
     ~ (percentage == 40)%Q) /\
  word_set scenario_job ≠ {["python"; "aws"; "kubernetes"; "looking"; "engineer"]}.
Proof.
  split.
  - eexists _, _. split; [apply calculate_ats_score_eq|]. vm_compute. discriminate.
  - intros H. apply (f_equal size) in H. vm_compute in H. discriminate.
Qed.

(** C3, amended. On the scenario the qualifying job-description tokens are
    looking, for, python, aws, kubernetes and engineer, the matched set is
    python and aws, and the percentage is [round((2 / 6) * 100, 2)], the
    float 33.33. *)
Theorem scenario_score :
  word_set scenario_job =
    {["looking"; "for"; "python"; "aws"; "kubernetes"; "engineer"]} /\
  calculate_ats_score scenario_resume scenario_job
  = Ok (PyNum.literal (3333 # 100), {["python"; "aws"]}) /\
  PyNum.literal (3333 # 100)
  = PyNum.round2 (PyNum.mul (PyNum.quotient 2 6) 100).
Proof. vm_compute. done. Qed.

(** C8. When the qualifying tokens of B are a strict subset of those of A,
    scoring A against itself gives at least the score of A against B. *)
Theorem ats_self_score_dominates (A B : string) :
  word_set B ⊂ word_set A ->
  exists self other,
    calculate_ats_score A A = Ok (self, word_set A) /\
    calculate_ats_score A B = Ok (other, word_set A ∩ word_set B) /\
    (other <= self)%Q.
Proof.
  intros Hsub.
  assert (HA : word_set A ≠ ∅).
  { intros HA. destruct Hsub as [_ Hnot]. apply Hnot. rewrite HA.
    apply empty_subseteq. }
  eexists _, _. rewrite !calculate_ats_score_eq, intersection_idemp_L.
  split; [reflexivity|]. split; [reflexivity|].
  rewrite (overlap_score_all (word_set A)) by done.
  replace (PyNum.round2 100) with 100%Q by (vm_compute; reflexivity).
  apply round2_overlap_bounds.
Qed.

Lemma ats_self_score_dominates_witness :
  word_set "python aws" ⊂ word_set "Python AWS Docker" /\
  exists self other,
    calculate_ats_score "Python AWS Docker" "Python AWS Docker"
    = Ok (self, word_set "Python AWS Docker") /\
    calculate_ats_score "Python AWS Docker" "python aws"
    = Ok (other, word_set "Python AWS Docker" ∩ word_set "python aws") /\
    (other <= self)%Q.
Proof.
  assert (H : word_set "python aws" ⊂ word_set "Python AWS Docker").
  { split.
    - apply (bool_decide_unpack _). vm_compute. exact I.
    - intros Hle. apply (bool_decide_pack _) in Hle. vm_compute in Hle. exact Hle. }
  split; [exact H|]. apply (ats_self_score_dominates _ _ H).
Defined.

(* ===================================================================== *)
(** * The detailed scorer *)
(* ===================================================================== *)

Lemma lower_all_strings (skills : list string) :
  Py.map_result Py.lower (map VStr skills) = Ok (map PyStr.lower skills).
Proof.
  induction skills as [|s skills IH]; [reflexivity|].
  cbn [map Py.map_result Py.lower Py.bind]. rewrite IH. reflexivity.
Qed.

(** C7. For resume data that is a dictionary whose skills (when present)
    are a list of strings and whose experience (when present) is a list,
    [calculate_detailed_scores] returns a dictionary in which
    experience_score is [min(100, 20 * number of experience entries)],
    skills_score and ats_score are the rounded overlaps of the extracted
    skills and of the resume words with the qualifying job-description
    tokens, and total_score is
    [round(ats * 0.3 + skills * 0.4 + experience * 0.3, 2)] over the
    unrounded sub-scores. *)
Theorem calculate_detailed_scores_spec
    (resume_text job_description : string) (entries : list (string * value))
    (skills : list string) (experience : list value) :
  Py.get (VDict entries) "skills" (VList []) = Ok (VList (map VStr skills)) ->
  Py.get (VDict entries) "experience" (VList []) = Ok (VList experience) ->
  exists r,
    calculate_detailed_scores resume_text job_description (VDict entries) = Some r /\
    experience_score r = Z.min 100 (20 * Z.of_nat (length experience)) /\
    (length experience = 3%nat -> experience_score r = 60) /\
    let jd_words := word_set job_description in
    let ats := overlap_score (word_set resume_text) jd_words in
    let skills_overlap :=
      overlap_score (list_to_set (map PyStr.lower skills)) jd_words in
    ats_score r = PyNum.round2 ats /\
    calculate_ats_score resume_text job_description
    = Ok (ats_score r, word_set resume_text ∩ jd_words) /\
    skills_score r = PyNum.round2 skills_overlap /\
    total_score r =
      PyNum.round2
        (PyNum.add
           (PyNum.add (PyNum.mul ats (PyNum.literal (3 # 10)))
                      (PyNum.mul skills_overlap (PyNum.literal (4 # 10))))
           (PyNum.mul (inject_Z (experience_score r)) (PyNum.literal (3 # 10)))).
Proof.
  intros Hskills Hexp.
  unfold calculate_detailed_scores, detailed_scores_body.
  rewrite Hskills. cbn [Py.bind Py.iter]. rewrite lower_all_strings.
  cbn [Py.bind]. rewrite !guarded_percent_eq. cbn [Py.bind].
  rewrite Hexp. cbn [Py.bind Py.len].
  eexists. split; [reflexivity|]. cbn [experience_score ats_score skills_score total_score].
  split; [lia|]. split; [intros ->; reflexivity|].
  split; [reflexivity|]. split; [apply calculate_ats_score_eq|].
  split; reflexivity.
Qed.

Lemma calculate_detailed_scores_spec_witness :
  exists r,
    calculate_detailed_scores "Python developer" "python engineer"
      (VDict [("skills", VList [VStr "Python"]);
              ("experience", VList [VDict []; VDict []; VDict []])]) = Some r /\
    experience_score r = 60.
Proof.
  destruct (calculate_detailed_scores_spec "Python developer" "python engineer"
              [("skills", VList [VStr "Python"]);
               ("experience", VList [VDict []; VDict []; VDict []])]
              ["Python"] [VDict []; VDict []; VDict []] eq_refl eq_refl)
    as (r & Hr & _ & H3 & _).
  exists r. split; [exact Hr|]. apply H3. reflexivity.
Defined.

(* ===================================================================== *)
(** * The prompt templates under [str.format] *)
(* ===================================================================== *)

(** The template of [extract_resume_data] has a literal brace: its first
    replacement field is the text from that brace to the next colon, which
    is no keyword argument. *)
Lemma extraction_prompt_raises (resume_text : string) :
  PyStr.format extraction_prompt [("resume_text", resume_text)]
  = PyStr.FormatRaises
      (KeyError (PyStr.nl +:+ "            " +:+ PyStr.quoted "personal_info")).
Proof. vm_compute. reflexivity. Qed.

Lemma soft_skills_prompt_raises (resume_text : string) :
  PyStr.format soft_skills_prompt [("text", resume_text)]
  = PyStr.FormatRaises
      (KeyError (PyStr.nl +:+ "            " +:+ PyStr.quoted "soft_skills")).
Proof. vm_compute. reflexivity. Qed.

(** The two templates of [analyze_resume] have plain fields only: the call
    of [format] returns a string. *)
Lemma analysis_prompt_in_model (resume_text job_description : string) :
  (exists p, PyStr.format analysis_prompt
               [("resume_text", resume_text); ("job_description", job_description)]
             = PyStr.Formatted p) /\
  (exists p, PyStr.format (analysis_prompt +:+ analysis_prompt_job)
               [("resume_text", resume_text); ("job_description", job_description)]
             = PyStr.Formatted p).
Proof. split; eexists; vm_compute; reflexivity. Qed.

(* ===================================================================== *)
(** * The facet functions *)
(* ===================================================================== *)

Lemma try_except_ok {S A : Type} (m : M S A) (handler : exn -> M S A) (s s' : S) (a : A) :
  m s = (Ok a, s') -> try_except m handler s = (Ok a, s').
Proof. intros H. unfold try_except. rewrite H. reflexivity. Qed.

Lemma try_except_raise {S A : Type} (m : M S A) (handler : exn -> M S A)
    (s s' : S) (e : exn) :
  m s = (Raise e, s') -> try_except m handler s = handler e s'.
Proof. intros H. unfold try_except. rewrite H. reflexivity. Qed.


Lemma extract_resume_data_eq {World : Type}
    (generate_content : request -> World -> option string * World)
    (json_loads : string -> option value) (resume_text : string) (w : World) :
  extract_resume_data generate_content json_loads resume_text w = (Ok default_data, w).
Proof.
  unfold extract_resume_data. destruct (PyStr.is_empty resume_text); [reflexivity|].
  unfold try_except, mbind, lift. rewrite extraction_prompt_raises. reflexivity.
Qed.

Lemma analyze_soft_skills_eq {World : Type}
    (generate_content : request -> World -> option string * World)
    (json_loads : string -> option value) (resume_text : string) (w : World) :
  analyze_soft_skills_and_sentiment generate_content json_loads resume_text w
  = (Ok VNone, w).
Proof.
  unfold analyze_soft_skills_and_sentiment.
  unfold try_except, mbind, lift. rewrite soft_skills_prompt_raises. reflexivity.
Qed.

(** C9. For every resume text, every behaviour of the remote model and of
    the JSON decoder: the call of [str.format] on the extraction template
    raises KeyError, no request is sent, and [extract_resume_data] returns
    its default data: personal_info with four empty strings, and empty
    lists of skills, education, experience and certifications. *)
Theorem extract_resume_data_always_default {World : Type}
    (generate_content : request -> World -> option string * World)
    (json_loads : string -> option value) (resume_text : string) (w : World) :
  (exists key, PyStr.format extraction_prompt [("resume_text", resume_text)]
               = PyStr.FormatRaises (KeyError key)) /\
  extract_resume_data generate_content json_loads resume_text w = (Ok default_data, w) /\
  default_data =
    VDict [("personal_info",
            VDict [("name", VStr ""); ("email", VStr ""); ("phone", VStr "");
                   ("location", VStr "")]);
           ("skills", VList []); ("education", VList []);
           ("experience", VList []); ("certifications", VList [])].
Proof.
  split; [eexists; apply extraction_prompt_raises|]. split; [|reflexivity].
  apply extract_resume_data_eq.
Qed.

(** C10. For every resume text, every behaviour of the remote model and of
    the JSON decoder: the call of [str.format] on the soft-skills template
    raises KeyError, no request is sent, and
    [analyze_soft_skills_and_sentiment] returns None. *)
Theorem analyze_soft_skills_always_none {World : Type}
    (generate_content : request -> World -> option string * World)
    (json_loads : string -> option value) (resume_text : string) (w : World) :
  (exists key, PyStr.format soft_skills_prompt [("text", resume_text)]
               = PyStr.FormatRaises (KeyError key)) /\
  analyze_soft_skills_and_sentiment generate_content json_loads resume_text w
  = (Ok VNone, w).
Proof.
  split; [eexists; apply soft_skills_prompt_raises|].
  apply analyze_soft_skills_eq.
Qed.

Section SchemaFacets.

Context {World : Type}.
Variable generate_content : request -> World -> option string * World.
Variable json_loads : string -> option value.

Lemma layout_is_schema_facet (resume_text : string) :
  analyze_resume_layout generate_content json_loads resume_text
  = if PyStr.is_empty resume_text then ret VNone
    else schema_facet generate_content json_loads layout_prompt resume_text
           layout_required_fields.
Proof. reflexivity. Qed.

Lemma summary_is_schema_facet (resume_text job_description : string) :
  generate_candidate_summary generate_content json_loads resume_text job_description
  = schema_facet generate_content json_loads
      (with_job summary_prompt job_description) resume_text summary_required_fields.
Proof. reflexivity. Qed.

Lemma enhancements_is_schema_facet (resume_text job_description : string) :
  analyze_ai_enhancements generate_content json_loads resume_text job_description
  = schema_facet generate_content json_loads
      (with_job enhancement_prompt job_description) resume_text
      enhancement_required_fields.
Proof. reflexivity. Qed.

(** The three outcomes of a facet that fills its missing fields. *)
Lemma schema_facet_cases (prompt resume_text : string)
    (required_fields : list (string * value)) (w : World) :
  exists w',
    schema_facet generate_content json_loads prompt resume_text required_fields w
    = (Ok VNone, w')
    \/ exists reply payload parsed res,
         extract reply = Ok payload /\
         json_loads payload = Some parsed /\
         fill_missing required_fields parsed = Ok res /\
         schema_facet generate_content json_loads prompt resume_text required_fields w
         = (Ok res, w').
Proof.
  unfold schema_facet, try_except, mbind, call_model, lift, ret.
  destruct (generate_content _ w) as [[reply|] w']; exists w'; [|by left].
  destruct (extract reply) as [payload|e] eqn:Hx; [|by left].
  destruct (json_loads payload) as [parsed|] eqn:Hl; [|by left].
  destruct (fill_missing required_fields parsed) as [res|e] eqn:Hf; [|by left].
  right. by exists reply, payload, parsed, res.
Qed.

(** A reply that does not decode gives None. *)
Lemma schema_facet_decode_failure (prompt resume_text : string)
    (required_fields : list (string * value)) (w w' : World) (reply : string) :
  (forall req, generate_content req w = (Some reply, w')) ->
  (forall payload, extract reply = Ok payload -> json_loads payload = None) ->
  schema_facet generate_content json_loads prompt resume_text required_fields w
  = (Ok VNone, w').
Proof.
  intros Hg Hl. unfold schema_facet, try_except, mbind, call_model, lift, ret.
  rewrite Hg. destruct (extract reply) as [payload|e] eqn:Hx; [|reflexivity].
  rewrite (Hl payload eq_refl). reflexivity.
Qed.

End SchemaFacets.

(** C5, amended. When the reply of the remote model does not decode as
    JSON, [extract_resume_data] returns its default data, and
    [analyze_resume_layout], [generate_candidate_summary],
    [analyze_ai_enhancements] and [analyze_soft_skills_and_sentiment]
    return None. *)
Theorem decode_failure_results {World : Type}
    (generate_content : request -> World -> option string * World)
    (json_loads : string -> option value)
    (resume_text job_description reply : string) (w w' : World) :
  (forall req, generate_content req w = (Some reply, w')) ->
  (forall payload, extract reply = Ok payload -> json_loads payload = None) ->
  fst (extract_resume_data generate_content json_loads resume_text w) = Ok default_data /\
  fst (analyze_resume_layout generate_content json_loads resume_text w) = Ok VNone /\
  fst (generate_candidate_summary generate_content json_loads
         resume_text job_description w) = Ok VNone /\
  fst (analyze_ai_enhancements generate_content json_loads
         resume_text job_description w) = Ok VNone /\
  fst (analyze_soft_skills_and_sentiment generate_content json_loads resume_text w)
  = Ok VNone.
Proof.
  intros Hg Hl.
  rewrite extract_resume_data_eq, analyze_soft_skills_eq.
  rewrite layout_is_schema_facet, summary_is_schema_facet, enhancements_is_schema_facet.
  destruct (PyStr.is_empty resume_text);
    rewrite ?(schema_facet_decode_failure generate_content json_loads _ _ _ w w' reply Hg Hl);
    repeat split; reflexivity.
Qed.

(** C5, as stated, fails: on a reply that is not JSON,
    [analyze_resume_layout] returns None, not the defaults of its schema. *)
Lemma layout_decode_failure_is_none :
  extract "not json" = Ok "not json" /\
  Json.loads "not json" = None /\
  fst (analyze_resume_layout (always_replies "not json") Json.loads "resume" tt)
  = Ok VNone /\
  VNone <> VDict layout_required_fields.
Proof. repeat split; try (vm_compute; reflexivity). discriminate. Qed.

Lemma decode_failure_results_witness :
  fst (extract_resume_data (always_replies "not json") Json.loads "resume" tt)
  = Ok default_data /\
  fst (analyze_resume_layout (always_replies "not json") Json.loads "resume" tt)
  = Ok VNone.
Proof.
  assert (Hg : forall req, always_replies "not json" req tt = (Some "not json", tt))
    by reflexivity.
  assert (Hl : forall payload, extract "not json" = Ok payload ->
                               Json.loads payload = None).
  { intros payload H. vm_compute in H. injection H as <-. vm_compute. reflexivity. }
  destruct (decode_failure_results (always_replies "not json") Json.loads
              "resume" "job" "not json" tt tt Hg Hl) as (H1 & H2 & _).
  split; [exact H1|exact H2].
Defined.

(* ===================================================================== *)
(** * The reconciliation loops *)
(* ===================================================================== *)

Lemma dict_lookup_set_eq (entries : list (string * value)) (k : string) (x : value) :
  Py.dict_lookup (Py.dict_set entries k x) k = Some x.
Proof.
  induction entries as [|[k0 v0] entries IH]; cbn.
  - by rewrite String.eqb_refl.
  - destruct (String.eqb k0 k) eqn:E; cbn; rewrite E; [reflexivity|exact IH].
Qed.

Lemma dict_lookup_set_ne (entries : list (string * value)) (k k' : string) (x : value) :
  k <> k' ->
  Py.dict_lookup (Py.dict_set entries k x) k' = Py.dict_lookup entries k'.
Proof.
  intros Hne. induction entries as [|[k0 v0] entries IH]; cbn.
  - apply String.eqb_neq in Hne. by rewrite Hne.
  - destruct (String.eqb k0 k) eqn:E; cbn.
    + apply String.eqb_eq in E. subst k0.
      apply String.eqb_neq in Hne. by rewrite Hne.
    + by rewrite IH.
Qed.

Lemma contains_setitem (r r' : value) (k : string) (x : value) :
  Py.setitem r k x = Ok r' -> Py.contains k r' = Ok true.
Proof.
  destruct r; try discriminate. cbn. intros [= <-]. cbn.
  by rewrite dict_lookup_set_eq.
Qed.

Lemma contains_setitem_mono (r r' : value) (k k' : string) (x : value) :
  Py.setitem r k x = Ok r' -> Py.contains k' r = Ok true -> Py.contains k' r' = Ok true.
Proof.
  destruct r; try discriminate. cbn. intros [= <-]. cbn.
  destruct (String.eqb_spec k k') as [->|Hne].
  - by rewrite dict_lookup_set_eq.
  - by rewrite dict_lookup_set_ne.
Qed.

Lemma fill_missing_mono (required_fields : list (string * value)) (r r' : value)
    (k : string) :
  fill_missing required_fields r = Ok r' ->
  Py.contains k r = Ok true -> Py.contains k r' = Ok true.
Proof.
  revert r. induction required_fields as [|[field default] req IH]; intros r; cbn.
  - by intros [= <-].
  - destruct (Py.contains field r) as [[|]|] eqn:Hc; cbn; try discriminate.
    + apply IH.
    + destruct (Py.setitem r field default) as [r1|] eqn:Hs; cbn; [|discriminate].
      intros Hf Hk. apply (IH r1 Hf). by eapply contains_setitem_mono.
Qed.

(** After the loop every required field is in the result. *)
Lemma fill_missing_contains (required_fields : list (string * value)) (r r' : value) :
  fill_missing required_fields r = Ok r' ->
  forall key, In key (map fst required_fields) -> Py.contains key r' = Ok true.
Proof.
  revert r. induction required_fields as [|[field default] req IH]; intros r; cbn.
  - intros _ key [].
  - destruct (Py.contains field r) as [[|]|] eqn:Hc; cbn; try discriminate.
    + intros Hf key [<-|Hin]; [|by eapply IH].
      by eapply fill_missing_mono.
    + destruct (Py.setitem r field default) as [r1|] eqn:Hs; cbn; [|discriminate].
      intros Hf key [<-|Hin]; [|by eapply IH].
      eapply fill_missing_mono; [exact Hf|]. by eapply contains_setitem.
Qed.

Lemma contains_dict_getitem (entries : list (string * value)) (key : string) :
  Py.contains key (VDict entries) = Ok true ->
  exists x, Py.getitem (VDict entries) key = Ok x.
Proof.
  cbn. destruct (Py.dict_lookup entries key); [eauto|discriminate].
Qed.

Lemma fill_missing_complete (required_fields : list (string * value)) (r r' : value) :
  fill_missing required_fields r = Ok r' -> none_or_complete required_fields r'.
Proof.
  intros Hf. right. intros key Hin.
  pose proof (fill_missing_contains _ _ _ Hf key Hin) as Hc.
  split; [exact Hc|]. intros entries ->. by apply contains_dict_getitem.
Qed.

Lemma schema_facet_complete {World : Type}
    (generate_content : request -> World -> option string * World)
    (json_loads : string -> option value) (prompt resume_text : string)
    (required_fields : list (string * value)) (w : World) :
  exists r w',
    schema_facet generate_content json_loads prompt resume_text required_fields w
    = (Ok r, w') /\ none_or_complete required_fields r.
Proof.
  destruct (schema_facet_cases generate_content json_loads prompt resume_text
              required_fields w) as (w' & [H|(reply & payload & parsed & res & _ & _ & Hf & H)]).
  - exists VNone, w'. split; [exact H|by left].
  - exists res, w'. split; [exact H|]. by eapply fill_missing_complete.
Qed.

Lemma set_personal_field_mono (pd pd' : value) (field k : string) :
  set_personal_field pd field = Ok pd' ->
  Py.contains k pd = Ok true -> Py.contains k pd' = Ok true.
Proof.
  destruct pd as [| | | | | |entries]; try discriminate. cbn.
  destruct (Py.setitem _ field (VStr "")) as [info'|]; cbn; [|discriminate].
  intros [= <-]. cbn.
  destruct (String.eqb_spec "personal_info" k) as [<-|Hne].
  - by rewrite dict_lookup_set_eq.
  - by rewrite dict_lookup_set_ne.
Qed.

(** The field that [set_personal_field] assigns is in the nested object
    afterwards, and so is every field that was there before. *)
Lemma set_personal_field_info (pd pd' info : value) (field : string) :
  Py.get pd "personal_info" (VDict []) = Ok info ->
  set_personal_field pd field = Ok pd' ->
  exists info',
    Py.get pd' "personal_info" (VDict []) = Ok info' /\
    Py.contains field info' = Ok true /\
    (forall f, Py.contains f info = Ok true -> Py.contains f info' = Ok true).
Proof.
  destruct pd as [| | | | | |entries]; try discriminate. cbn.
  intros [= <-].
  destruct (Py.setitem _ field (VStr "")) as [info'|] eqn:Hs; cbn; [|discriminate].
  intros [= <-]. exists info'. cbn. rewrite dict_lookup_set_eq.
  split; [reflexivity|]. split; [by eapply contains_setitem|].
  intros f. by eapply contains_setitem_mono.
Qed.

Lemma fill_personal_info_mono (fields : list string) (pd r : value) (k : string) :
  fill_personal_info fields pd = Ok r ->
  Py.contains k pd = Ok true -> Py.contains k r = Ok true.
Proof.
  revert pd. induction fields as [|field fields IH]; intros pd; cbn.
  - by intros [= <-].
  - destruct (Py.get pd "personal_info" (VDict [])) as [info|]; cbn; [|discriminate].
    destruct (Py.contains field info) as [[|]|]; cbn; try discriminate.
    + apply IH.
    + destruct (set_personal_field pd field) as [pd'|] eqn:Hs; cbn; [|discriminate].
      intros Hf Hk. apply (IH pd' Hf). by eapply set_personal_field_mono.
Qed.

Lemma fill_personal_info_keeps (fields : list string) (pd r info : value) (f : string) :
  fill_personal_info fields pd = Ok r ->
  Py.get pd "personal_info" (VDict []) = Ok info ->
  Py.contains f info = Ok true ->
  exists info', Py.get r "personal_info" (VDict []) = Ok info' /\
                Py.contains f info' = Ok true.
Proof.
  revert pd info. induction fields as [|field fields IH]; intros pd info; cbn.
  - intros [= <-] Hg Hc. eauto.
  - intros Hf Hg Hc. rewrite Hg in Hf. cbn in Hf.
    destruct (Py.contains field info) as [[|]|]; cbn in Hf; try discriminate.
    + by eapply IH.
    + destruct (set_personal_field pd field) as [pd'|] eqn:Hs; cbn in Hf; [|discriminate].
      destruct (set_personal_field_info pd pd' info field Hg Hs) as (info' & Hg' & _ & Hmono).
      eapply IH; eauto.
Qed.

Lemma fill_personal_info_fills (fields : list string) (pd r : value) :
  fill_personal_info fields pd = Ok r ->
  forall f, In f fields ->
  exists info', Py.get r "personal_info" (VDict []) = Ok info' /\
                Py.contains f info' = Ok true.
Proof.
  revert pd. induction fields as [|field fields IH]; intros pd; cbn.
  - intros _ f [].
  - destruct (Py.get pd "personal_info" (VDict [])) as [info|] eqn:Hg; cbn; [|discriminate].
    destruct (Py.contains field info) as [[|]|] eqn:Hc; cbn; try discriminate.
    + intros Hf f [<-|Hin]; [|by eapply IH]. by eapply fill_personal_info_keeps.
    + destruct (set_personal_field pd field) as [pd'|] eqn:Hs; cbn; [|discriminate].
      intros Hf f [<-|Hin]; [|by eapply IH].
      destruct (set_personal_field_info pd pd' info field Hg Hs) as (info' & Hg' & Hc' & _).
      by eapply fill_personal_info_keeps.
Qed.

(** The reconciliation of [extract_resume_data] (lines 159-169), when it
    does not raise: the five top-level keys are in the result, and the four
    fields of personal_info are in its nested object. *)
Lemma reconcile_resume_data_complete (parsed r : value) :
  reconcile_resume_data parsed = Ok r ->
  (forall key, In key (map fst default_data_entries) -> Py.contains key r = Ok true) /\
  (forall f, In f (map fst default_personal_info) ->
     exists info, Py.get r "personal_info" (VDict []) = Ok info /\
                  Py.contains f info = Ok true).
Proof.
  unfold reconcile_resume_data.
  destruct (fill_missing default_data_entries parsed) as [pd|] eqn:Hf;
    cbn [Py.bind]; [|discriminate].
  intros Hp. split.
  - intros key Hin. eapply fill_personal_info_mono; [exact Hp|].
    by eapply fill_missing_contains.
  - by eapply fill_personal_info_fills.
Qed.

(** C4, as stated, fails. On a reply that is not JSON
    [analyze_ai_enhancements] returns None, which has no key at all. On a
    reply whose domain_analysis is an empty object the result keeps that
    empty object, the loop filling top-level keys only, and reading
    primary_domain inside it raises KeyError. *)
Lemma nested_key_missing :
  fst (analyze_ai_enhancements (always_replies "not json") Json.loads
         "resume" "" tt) = Ok VNone /\
  Py.getitem VNone "domain_analysis" = Raise TypeError /\
  exists r,
    fst (analyze_ai_enhancements (always_replies empty_domain_reply) Json.loads
           "resume" "" tt) = Ok r /\
    Py.getitem r "domain_analysis" = Ok (VDict []) /\
    Py.getitem (VDict []) "primary_domain" = Raise (KeyError "primary_domain").
Proof.
  split; [vm_compute; reflexivity|]. split; [reflexivity|].
  eexists. vm_compute. done.
Qed.

(** C4, amended. For every reply of the remote model: [extract_resume_data]
    returns a dictionary in which every top-level key of its schema and
    every field of personal_info can be read; [analyze_resume_layout],
    [generate_candidate_summary] and [analyze_ai_enhancements] return either
    None or a result that has every top-level key of their schema, readable
    when the result is a dictionary. *)
Theorem facet_results_have_top_level_keys {World : Type}
    (generate_content : request -> World -> option string * World)
    (json_loads : string -> option value)
    (resume_text job_description : string) (w : World) :
  (exists r w',
     extract_resume_data generate_content json_loads resume_text w = (Ok r, w') /\
     (forall key, In key (map fst default_data_entries) ->
        exists x, Py.getitem r key = Ok x) /\
     (exists info, Py.getitem r "personal_info" = Ok info /\
        forall f, In f (map fst default_personal_info) ->
          exists x, Py.getitem info f = Ok x)) /\
  (exists r w',
     analyze_resume_layout generate_content json_loads resume_text w = (Ok r, w') /\
     none_or_complete layout_required_fields r) /\
  (exists r w',
     generate_candidate_summary generate_content json_loads
       resume_text job_description w = (Ok r, w') /\
     none_or_complete summary_required_fields r) /\
  (exists r w',
     analyze_ai_enhancements generate_content json_loads
       resume_text job_description w = (Ok r, w') /\
     none_or_complete enhancement_required_fields r).
Proof.
  split; [|split; [|split]].
  - exists default_data, w. split; [apply extract_resume_data_eq|]. split.
    + intros key Hin. cbn in Hin.
      repeat (destruct Hin as [<-|Hin]; [cbn; eauto|]). destruct Hin.
    + eexists. split; [reflexivity|]. intros f Hin. cbn in Hin.
      repeat (destruct Hin as [<-|Hin]; [cbn; eauto|]). destruct Hin.
  - rewrite layout_is_schema_facet. destruct (PyStr.is_empty resume_text).
    + exists VNone, w. split; [reflexivity|by left].
    + apply schema_facet_complete.
  - rewrite summary_is_schema_facet. apply schema_facet_complete.
  - rewrite enhancements_is_schema_facet. apply schema_facet_complete.
Qed.

(* ===================================================================== *)
(** * The button handler *)
(* ===================================================================== *)



Section Handler.

Context {World : Type}.
Variable generate_content : request -> World -> option string * World.
Variable json_loads : string -> option value.
Variable recommend_courses : value -> result value.


Lemma job_tokens_elements (job_description : string) :
  job_tokens job_description (VList (map VStr (elements (word_set job_description)))).
Proof.
  eexists. split; [reflexivity|]. split; [apply NoDup_elements|].
  intros x. rewrite <- list_elem_of_In. apply elem_of_elements.
Qed.



End Handler.



(** A run in which every reply is an empty JSON object: every facet is
    computed, each result is its schema's defaults, and the run reaches its
    end. The tokens of the job description are in the skills, and in the
    skills of the extracted data, which hold the same list. *)
Example run_with_empty_objects :
  let out := analyze_clicked (always_replies "{}") Json.loads no_courses
               "Python developer" "Python engineer" tt in
  snd (fst out) = true /\
  Locals.analysis (fst (fst out)) = Some (VStr "{}") /\
  Locals.candidate_summary (fst (fst out)) = Some (VDict summary_required_fields) /\
  Locals.ai_enhancements (fst (fst out)) = Some (VDict enhancement_required_fields) /\
  Locals.layout_analysis (fst (fst out)) = Some (VDict layout_required_fields) /\
  Locals.courses (fst (fst out)) = Some (VList []) /\
  (exists sk, Locals.skills (fst (fst out)) = Some sk /\
     job_tokens "Python engineer" sk /\
     Locals.resume_data (fst (fst out)) = Some (holding default_data "skills" sk) /\
     Py.getitem (holding default_data "skills" sk) "skills" = Ok sk /\
     Py.truthy sk = true).
Proof.
  vm_compute. repeat (split; [reflexivity|]).
  eexists. split; [reflexivity|]. split; [|repeat split].
  pose proof (job_tokens_elements "Python engineer") as H. vm_compute in H. exact H.
Qed.

(** A run in which the candidate summary decodes but holds a number where
    the page iterates: drawing it raises, and the handler stops before the
    enhancement analysis. *)
Example run_with_number_for_list :
  let out := analyze_clicked (always_replies number_for_list_reply) Json.loads
               no_courses "Python developer" "Python engineer" tt in
  snd (fst out) = false /\
  (exists cs, Locals.candidate_summary (fst (fst out)) = Some cs /\
              Py.getitem cs "key_qualifications" = Ok (VInt 5)) /\
  Locals.ai_enhancements (fst (fst out)) = None.
Proof. vm_compute. split; [reflexivity|]. split; [|reflexivity]. eexists. split; reflexivity. Qed.


(* ===================================================================== *)
(** * Occurrences, [find] and [split] *)
(* ===================================================================== *)

Module PyStrFacts.

Lemma app_nil_l (s : string) : EmptyString +:+ s = s.
Proof. reflexivity. Qed.

Lemma app_cons (c : ascii) (s t : string) : String c s +:+ t = String c (s +:+ t).
Proof. reflexivity. Qed.

Lemma app_nil_r (s : string) : s +:+ EmptyString = s.
Proof. induction s as [|c s IH]; [reflexivity|]. by rewrite app_cons, IH. Qed.

Lemma app_assoc (a b c : string) : (a +:+ b) +:+ c = a +:+ (b +:+ c).
Proof. induction a as [|x a IH]; [reflexivity|]. by rewrite !app_cons, IH. Qed.

Lemma length_app (a b : string) :
  String.length (a +:+ b) = (String.length a + String.length b)%nat.
Proof. induction a as [|x a IH]; [reflexivity|]. rewrite app_cons. cbn. by rewrite IH. Qed.

Lemma take_app (p r : string) : PyStr.take (String.length p) (p +:+ r) = p.
Proof. induction p as [|c p IH]; [by destruct r|]. rewrite app_cons. cbn. by rewrite IH. Qed.

Lemma drop_app (p r : string) : PyStr.drop (String.length p) (p +:+ r) = r.
Proof. induction p as [|c p IH]; [by destruct r|]. rewrite app_cons. cbn. exact IH. Qed.

Lemma drop_add (a b : nat) (s : string) :
  PyStr.drop (a + b) s = PyStr.drop b (PyStr.drop a s).
Proof.
  revert s. induction a as [|a IH]; intros s; [reflexivity|].
  destruct s as [|c s]; cbn; [by destruct b|]. apply IH.
Qed.

Lemma take_drop (n : nat) (s : string) : PyStr.take n s +:+ PyStr.drop n s = s.
Proof.
  revert s. induction n as [|n IH]; intros s; [by destruct s|].
  destruct s as [|c s]; [reflexivity|]. cbn. by rewrite app_cons, IH.
Qed.

Lemma length_take (n : nat) (s : string) :
  (n <= String.length s)%nat -> String.length (PyStr.take n s) = n.
Proof.
  revert s. induction n as [|n IH]; intros s Hn; [by destruct s|].
  destruct s as [|c s]; cbn in *; [lia|]. rewrite IH; lia.
Qed.

Lemma take_take (k j : nat) (s : string) :
  (k <= j)%nat -> PyStr.take k (PyStr.take j s) = PyStr.take k s.
Proof.
  revert j s. induction k as [|k IH]; intros j s Hkj.
  - by destruct (PyStr.take j s), s.
  - destruct j as [|j]; [lia|]. destruct s as [|c s]; [reflexivity|].
    cbn. rewrite IH; [reflexivity|lia].
Qed.

(** A text cut in two ways: the shorter left part is a prefix of the
    longer one. *)
Lemma app_eq_split (a b c d : string) :
  a +:+ b = c +:+ d -> (String.length a <= String.length c)%nat ->
  exists m, c = a +:+ m /\ b = m +:+ d.
Proof.
  revert c. induction a as [|x a IH]; intros c H Hlen.
  - exists c. by rewrite app_nil_l in *.
  - destruct c as [|y c]; cbn in Hlen; [lia|].
    rewrite !app_cons in H. injection H as -> H.
    destruct (IH c H ltac:(lia)) as (m & -> & ->). exists m. by rewrite app_cons.
Qed.

Lemma app_inv_head (a b c : string) : a +:+ b = a +:+ c -> b = c.
Proof.
  induction a as [|x a IH]; [done|]. rewrite !app_cons. intros [= H]. by apply IH.
Qed.

Lemma startswith_spec (p s : string) :
  PyStr.startswith p s = true <-> exists r, s = p +:+ r.
Proof.
  revert s. induction p as [|a p IH]; intros s; cbn.
  - split; [by exists s|done].
  - destruct s as [|b s].
    + split; [discriminate|]. intros (r & H). rewrite app_cons in H. discriminate.
    + destruct (Ascii.eqb_spec a b) as [->|Hne].
      * rewrite IH. split; intros (r & H).
        -- exists r. by rewrite app_cons, H.
        -- exists r. rewrite app_cons in H. by injection H.
      * split; [discriminate|]. intros (r & H). rewrite app_cons in H.
        injection H as Hab _. by destruct Hne.
Qed.

Lemma occurs_at_0 (sep s : string) :
  occurs_at sep 0 s <-> PyStr.startswith sep s = true.
Proof.
  rewrite startswith_spec. split.
  - intros (p & r & -> & Hp). destruct p; [|discriminate]. by exists r.
  - intros (r & ->). by exists EmptyString, r.
Qed.

Lemma occurs_at_S (sep : string) (j : nat) (c : ascii) (s : string) :
  occurs_at sep (S j) (String c s) <-> occurs_at sep j s.
Proof.
  split.
  - intros (p & r & H & Hp). destruct p as [|x p]; [discriminate|].
    rewrite app_cons in H. injection H as -> ->. injection Hp as Hp. by exists p, r.
  - intros (p & r & -> & Hp). exists (String c p), r. rewrite app_cons.
    split; [reflexivity|]. cbn. by rewrite Hp.
Qed.

Lemma occurs_at_nil (sep : string) (j : nat) :
  occurs_at sep j EmptyString -> j = 0%nat.
Proof.
  intros (p & r & H & Hp). destruct p; [by cbn in Hp|]. rewrite app_cons in H.
  discriminate.
Qed.

(** [find] returns the leftmost occurrence. *)
Lemma find_Some (sep s : string) (i : nat) :
  PyStr.find sep s = Some i -> first_at sep i s.
Proof.
  revert i. induction s as [|c s IH]; intros i; cbn.
  - destruct (PyStr.startswith sep EmptyString) eqn:Hs; [|discriminate].
    intros [= <-]. split; [by apply occurs_at_0|]. intros j _. lia.
  - destruct (PyStr.startswith sep (String c s)) eqn:Hs.
    + intros [= <-]. split; [by apply occurs_at_0|]. intros j _. lia.
    + destruct (PyStr.find sep s) as [i'|]; [|discriminate]. cbn.
      intros [= <-]. destruct (IH i' eq_refl) as [Hocc Hmin]. split.
      * by apply occurs_at_S.
      * intros [|j] Hj.
        -- apply occurs_at_0 in Hj. congruence.
        -- apply occurs_at_S in Hj. specialize (Hmin j Hj). lia.
Qed.

Lemma find_None (sep s : string) : PyStr.find sep s = None -> absent sep s.
Proof.
  induction s as [|c s IH]; cbn.
  - destruct (PyStr.startswith sep EmptyString) eqn:Hs; [discriminate|].
    intros _ j Hj. pose proof (occurs_at_nil _ _ Hj) as ->.
    apply occurs_at_0 in Hj. congruence.
  - destruct (PyStr.startswith sep (String c s)) eqn:Hs; [discriminate|].
    destruct (PyStr.find sep s) as [i'|]; [discriminate|]. intros _ [|j] Hj.
    + apply occurs_at_0 in Hj. congruence.
    + apply occurs_at_S in Hj. by apply (IH eq_refl j).
Qed.

Lemma first_at_find (sep s : string) (i : nat) :
  first_at sep i s -> PyStr.find sep s = Some i.
Proof.
  intros [Hocc Hmin]. destruct (PyStr.find sep s) as [i'|] eqn:Hf.
  - destruct (find_Some _ _ _ Hf) as [Hocc' Hmin'].
    specialize (Hmin i' Hocc'). specialize (Hmin' i Hocc). f_equal. lia.
  - by destruct (find_None _ _ Hf i).
Qed.

Lemma absent_find (sep s : string) : absent sep s -> PyStr.find sep s = None.
Proof.
  intros Habs. destruct (PyStr.find sep s) as [i|] eqn:Hf; [|reflexivity].
  destruct (find_Some _ _ _ Hf) as [Hocc _]. by destruct (Habs i).
Qed.

Lemma contains_true (sep s : string) :
  PyStr.contains sep s = true <-> exists i, first_at sep i s.
Proof.
  unfold PyStr.contains. split.
  - destruct (PyStr.find sep s) as [i|] eqn:Hf; [|discriminate].
    intros _. exists i. by apply find_Some.
  - intros (i & Hi). by rewrite (first_at_find _ _ _ Hi).
Qed.

Lemma contains_false (sep s : string) :
  PyStr.contains sep s = false <-> absent sep s.
Proof.
  unfold PyStr.contains. split.
  - destruct (PyStr.find sep s) as [i|] eqn:Hf; [discriminate|].
    intros _. by apply find_None.
  - intros Habs. by rewrite (absent_find _ _ Habs).
Qed.

(** The first piece of [split]. *)
Lemma split_first (sep s : string) :
  PyStr.item (PyStr.split sep s) 0 = Some (before sep s).
Proof.
  unfold PyStr.split, before. cbn. by destruct (PyStr.find sep s).
Qed.

(** The second piece of [split], when there is a first occurrence. *)
Lemma split_second (sep s : string) (i : nat) :
  PyStr.find sep s = Some i ->
  PyStr.item (PyStr.split sep s) 1
  = Some (before sep (PyStr.drop (i + String.length sep) s)).
Proof.
  intros Hf. unfold PyStr.split. cbn [PyStr.split_fuel]. rewrite Hf.
  cbn [PyStr.item nth_error]. unfold before.
  destruct (String.length s) as [|n] eqn:Hlen.
  - destruct s; [|discriminate]. cbn.
    replace (PyStr.drop (i + String.length sep) EmptyString) with EmptyString
      by (by destruct (i + String.length sep)%nat).
    destruct (PyStr.find sep EmptyString) as [k|]; [|reflexivity].
    by destruct k.
  - cbn [PyStr.split_fuel].
    destruct (PyStr.find sep (PyStr.drop (i + String.length sep) s)); reflexivity.
Qed.

Lemma take_app_ge (x y : string) (n : nat) :
  PyStr.take (String.length x + n) (x +:+ y) = x +:+ PyStr.take n y.
Proof.
  induction x as [|c x IH]; [reflexivity|]. rewrite !app_cons. cbn. by rewrite IH.
Qed.

Lemma occurs_at_length (sep : string) (p : nat) (s : string) :
  occurs_at sep p s -> (p + String.length sep <= String.length s)%nat.
Proof. intros (a & b & -> & <-). rewrite !length_app. lia. Qed.

(** The occurrences in a prefix are the occurrences that end inside it. *)
Lemma occurs_at_take (sep : string) (p j : nat) (s : string) :
  (j <= String.length s)%nat ->
  occurs_at sep p (PyStr.take j s) <->
  occurs_at sep p s /\ (p + String.length sep <= j)%nat.
Proof.
  intros Hj. split.
  - intros Hocc. pose proof (occurs_at_length _ _ _ Hocc) as Hlen.
    rewrite length_take in Hlen by done. split; [|done].
    destruct Hocc as (a & b & Heq & Ha). exists a, (b +:+ PyStr.drop j s).
    split; [|done]. rewrite <- (take_drop j s) at 1. rewrite Heq.
    by rewrite !app_assoc.
  - intros [(a & b & -> & <-) Hle].
    rewrite !length_app in Hj.
    replace j with (String.length a
                    + (String.length sep + (j - String.length a - String.length sep)))%nat
      by lia.
    rewrite take_app_ge, take_app_ge. by eexists _, _.
Qed.

(** The text before the first [sep] has no [sep], for a non-empty [sep]. *)
Lemma before_absent (sep s : string) :
  sep <> EmptyString -> absent sep (before sep s).
Proof.
  intros Hne. unfold before. destruct (PyStr.find sep s) as [i|] eqn:Hf.
  - destruct (find_Some _ _ _ Hf) as [Hocc Hmin]. intros p Hp.
    pose proof (occurs_at_length _ _ _ Hocc).
    apply occurs_at_take in Hp as [Hp Hle]; [|lia].
    specialize (Hmin p Hp). destruct sep; [done|]. cbn in Hle. lia.
  - by apply find_None.
Qed.

Lemma before_of_absent (sep s : string) : absent sep s -> before sep s = s.
Proof. intros H. unfold before. by rewrite (absent_find _ _ H). Qed.

Lemma before_of_first (sep s : string) (k : nat) :
  first_at sep k s -> before sep s = PyStr.take k s.
Proof. intros H. unfold before. by rewrite (first_at_find _ _ _ H). Qed.

Lemma length_drop (n : nat) (s : string) :
  String.length (PyStr.drop n s) = (String.length s - n)%nat.
Proof.
  revert s. induction n as [|n IH]; intros s; [cbn; destruct s; cbn; lia|].
  destruct s as [|c s]; [reflexivity|]. cbn. apply IH.
Qed.

(** More rounds than characters do not change what [split_fuel] returns:
    [split] is the complete split. *)
Lemma split_fuel_enough (sep : string) (fuel fuel' : nat) (s : string) :
  sep <> EmptyString ->
  (String.length s < fuel)%nat -> (String.length s < fuel')%nat ->
  PyStr.split_fuel fuel sep s = PyStr.split_fuel fuel' sep s.
Proof.
  intros Hne. revert fuel' s. induction fuel as [|fuel IH]; intros fuel' s H1 H2; [lia|].
  destruct fuel' as [|fuel']; [lia|]. cbn.
  destruct (PyStr.find sep s) as [i|] eqn:Hf; [|reflexivity].
  destruct (find_Some _ _ _ Hf) as [Hocc _].
  pose proof (occurs_at_length _ _ _ Hocc) as Hlen.
  assert (0 < String.length sep)%nat by (destruct sep; [done|cbn; lia]).
  f_equal. apply IH; rewrite length_drop; lia.
Qed.

(** ** Trimming keeps the occurrences of a marker without whitespace *)

Lemma lstrip_spec (s : string) :
  exists l, s = l +:+ PyStr.lstrip s /\ all_chars PyStr.isspace l = true.
Proof.
  induction s as [|c s (l & Hl & Hsp)]; [by exists EmptyString|]. cbn.
  destruct (PyStr.isspace c) eqn:Hc.
  - exists (String c l). rewrite app_cons, <- Hl. split; [reflexivity|].
    cbn. by rewrite Hc.
  - by exists EmptyString.
Qed.

Lemma rstrip_spec (s : string) :
  exists r, s = PyStr.rstrip s +:+ r /\ all_chars PyStr.isspace r = true.
Proof.
  induction s as [|c s (r & Hr & Hsp)]; [by exists EmptyString|]. cbn.
  destruct (PyStr.isspace c) eqn:Hc; cbn.
  - destruct (PyStr.rstrip s) eqn:Hrs; cbn.
    + rewrite app_nil_l in Hr. subst s. exists (String c r). rewrite app_nil_l.
      split; [reflexivity|]. cbn. by rewrite Hc.
    + exists r. by rewrite app_cons, <- Hr.
  - exists r. by rewrite app_cons, <- Hr.
Qed.

Lemma strip_spec (s : string) :
  exists l r, s = l +:+ PyStr.strip s +:+ r /\
              all_chars PyStr.isspace l = true /\ all_chars PyStr.isspace r = true.
Proof.
  destruct (lstrip_spec s) as (l & Hl & Hlsp).
  destruct (rstrip_spec (PyStr.lstrip s)) as (r & Hr & Hrsp).
  exists l, r. unfold PyStr.strip. by rewrite <- Hr.
Qed.

Lemma startswith_before_spaces (sep t r : string) :
  all_chars not_space sep = true -> all_chars PyStr.isspace r = true ->
  PyStr.startswith sep (t +:+ r) = true -> PyStr.startswith sep t = true.
Proof.
  intros Hsep Hr. revert t. induction sep as [|c sep IH]; intros t; [done|].
  cbn in Hsep. apply andb_true_iff in Hsep as [Hc Hsep].
  destruct t as [|x t].
  - rewrite app_nil_l. destruct r as [|y r]; [done|]. cbn.
    destruct (Ascii.eqb_spec c y) as [->|]; [|done].
    cbn in Hr. apply andb_true_iff in Hr as [Hy _].
    unfold not_space in Hc. by rewrite Hy in Hc.
  - rewrite app_cons. cbn. destruct (Ascii.eqb c x); [|done]. by apply IH.
Qed.

Lemma occurs_at_startswith (sep : string) (i : nat) (s : string) :
  occurs_at sep i s <->
  (i <= String.length s)%nat /\ PyStr.startswith sep (PyStr.drop i s) = true.
Proof.
  split.
  - intros (p & q & -> & <-). rewrite drop_app, length_app. split; [lia|].
    apply startswith_spec. by exists q.
  - intros [Hi Hs]. apply startswith_spec in Hs as (q & Hq).
    exists (PyStr.take i s), q. rewrite <- Hq, take_drop.
    split; [reflexivity|]. by apply length_take.
Qed.

Lemma occurs_app_r (sep t r : string) : occurs sep t -> occurs sep (t +:+ r).
Proof.
  intros (i & p & q & -> & Hp). exists i, p, (q +:+ r). by rewrite !app_assoc.
Qed.

Lemma occurs_app_l (sep l t : string) : occurs sep t -> occurs sep (l +:+ t).
Proof.
  intros (i & p & q & -> & Hp). exists (String.length (l +:+ p)), (l +:+ p), q.
  by rewrite !app_assoc.
Qed.

Lemma occurs_before_spaces (sep t r : string) :
  sep <> EmptyString -> all_chars not_space sep = true ->
  all_chars PyStr.isspace r = true ->
  occurs sep (t +:+ r) -> occurs sep t.
Proof.
  intros Hne Hsep Hr. induction t as [|x t IH].
  - rewrite app_nil_l. intros (i & Hi). exfalso. revert i Hi.
    induction r as [|y r IHr]; intros i Hi.
    + pose proof (occurs_at_nil _ _ Hi) as ->. apply occurs_at_0 in Hi.
      by destruct sep.
    + cbn in Hr. apply andb_true_iff in Hr as [Hy Hr]. destruct i as [|i].
      * apply occurs_at_0 in Hi. destruct sep as [|c sep]; [done|]. cbn in Hi, Hsep.
        destruct (Ascii.eqb_spec c y) as [->|]; [|done].
        apply andb_true_iff in Hsep as [Hc _]. unfold not_space in Hc.
        by rewrite Hy in Hc.
      * apply occurs_at_S in Hi. by apply (IHr Hr i).
  - rewrite app_cons. intros ([|i] & Hi).
    + apply occurs_at_0 in Hi. exists 0%nat. apply occurs_at_0.
      by apply (startswith_before_spaces sep (String x t) r).
    + apply occurs_at_S in Hi. destruct (IH (ex_intro _ i Hi)) as (j & Hj).
      exists (S j). by apply occurs_at_S.
Qed.

Lemma occurs_after_spaces (sep l t : string) :
  sep <> EmptyString -> all_chars not_space sep = true ->
  all_chars PyStr.isspace l = true ->
  occurs sep (l +:+ t) -> occurs sep t.
Proof.
  intros Hne Hsep. induction l as [|y l IH]; [done|]. cbn.
  intros [Hy Hl]%andb_true_iff. rewrite app_cons. intros ([|i] & Hi).
  - apply occurs_at_0 in Hi. destruct sep as [|c sep]; [done|]. cbn in Hi, Hsep.
    destruct (Ascii.eqb_spec c y) as [->|]; [|done].
    apply andb_true_iff in Hsep as [Hc _]. unfold not_space in Hc.
    by rewrite Hy in Hc.
  - apply occurs_at_S in Hi. apply (IH Hl). by exists i.
Qed.

(** A marker without whitespace is in the trimmed text exactly when it is in
    the text. *)
Lemma occurs_strip (sep s : string) :
  sep <> EmptyString -> all_chars not_space sep = true ->
  occurs sep (PyStr.strip s) <-> occurs sep s.
Proof.
  intros Hne Hsep. destruct (strip_spec s) as (l & r & Hs & Hl & Hr). split.
  - intros H. rewrite Hs. by apply occurs_app_l, occurs_app_r.
  - intros H. rewrite Hs in H.
    apply (occurs_before_spaces sep _ r Hne Hsep Hr).
    by apply (occurs_after_spaces sep l _ Hne Hsep Hl).
Qed.

End PyStrFacts.

(* ===================================================================== *)
(** * The response extractor *)
(* ===================================================================== *)

Lemma json_fence_is_fence (j : nat) (s : string) :
  occurs_at json_fence j s -> occurs_at fence j s.
Proof.
  intros (a & b & -> & Ha). exists a, ("json" +:+ b). split; [|done].
  change json_fence with (fence +:+ "json"). by rewrite PyStrFacts.app_assoc.
Qed.

Lemma strip_code_fence_json (text : string) (i : nat) :
  first_at json_fence i text ->
  strip_code_fence text
  = Ok (PyStr.strip (before fence (before json_fence (PyStr.drop (i + 7) text)))).
Proof.
  intros Hi. unfold strip_code_fence.
  assert (Hc : PyStr.contains json_fence text = true)
    by (apply PyStrFacts.contains_true; eauto).
  rewrite Hc. unfold part.
  rewrite (PyStrFacts.split_second _ _ _ (PyStrFacts.first_at_find _ _ _ Hi)).
  cbn [Py.bind]. rewrite PyStrFacts.split_first. reflexivity.
Qed.

Lemma strip_code_fence_plain (text : string) (i : nat) :
  absent json_fence text -> first_at fence i text ->
  strip_code_fence text = Ok (PyStr.strip (before fence (PyStr.drop (i + 3) text))).
Proof.
  intros Habs Hi. unfold strip_code_fence.
  apply PyStrFacts.contains_false in Habs. rewrite Habs.
  assert (Hc : PyStr.contains fence text = true)
    by (apply PyStrFacts.contains_true; eauto).
  rewrite Hc. unfold part.
  rewrite (PyStrFacts.split_second _ _ _ (PyStrFacts.first_at_find _ _ _ Hi)).
  cbn [Py.bind]. rewrite PyStrFacts.split_first. cbn [Py.bind].
  rewrite (PyStrFacts.before_of_absent fence (before fence _)); [reflexivity|].
  by apply PyStrFacts.before_absent.
Qed.

Lemma strip_code_fence_none (text : string) :
  absent fence text -> strip_code_fence text = Ok text.
Proof.
  intros Habs. unfold strip_code_fence.
  assert (Hj : PyStr.contains json_fence text = false).
  { apply PyStrFacts.contains_false. intros j Hj. apply (Habs j).
    by apply json_fence_is_fence. }
  apply PyStrFacts.contains_false in Habs. by rewrite Hj, Habs.
Qed.

(** Cutting at the next json fence first does not move the cut at the next
    fence, unless that json fence starts one or two characters after it. *)
Lemma before_fence_before_json (rest : string) (k : nat) :
  first_at fence k rest ->
  (forall j, occurs_at json_fence j rest -> j = k \/ (k + 3 <= j)%nat) ->
  before fence (before json_fence rest) = PyStr.take k rest.
Proof.
  intros Hk Hfar. unfold before at 2.
  destruct (PyStr.find json_fence rest) as [j|] eqn:Hf;
    [|by apply PyStrFacts.before_of_first].
  destruct (PyStrFacts.find_Some _ _ _ Hf) as [Hj _].
  pose proof (PyStrFacts.occurs_at_length _ _ _ Hj) as Hlen.
  destruct Hk as [Hocc Hmin].
  destruct (Hfar j Hj) as [->|Hle].
  - apply PyStrFacts.before_of_absent. intros p Hp.
    apply PyStrFacts.occurs_at_take in Hp as [Hp Hpk]; [|lia].
    specialize (Hmin p Hp). cbn in Hpk. lia.
  - rewrite (PyStrFacts.before_of_first fence _ k).
    + apply PyStrFacts.take_take. lia.
    + split.
      * apply PyStrFacts.occurs_at_take; [lia|]. split; [done|]. cbn. lia.
      * intros p Hp. apply PyStrFacts.occurs_at_take in Hp as [Hp _]; [|lia].
        by apply Hmin.
Qed.

Lemma before_fence_before_json_absent (rest : string) :
  absent fence rest -> before fence (before json_fence rest) = rest.
Proof.
  intros Habs. rewrite (PyStrFacts.before_of_absent json_fence).
  - by apply PyStrFacts.before_of_absent.
  - intros j Hj. apply (Habs j). by apply json_fence_is_fence.
Qed.

(** C6, as stated, fails: after the first json fence of this reply the next
    fence starts at position 2 of the rest, so the text between the two is
    x; the extractor cuts at the later json fence first and returns x with
    a backtick. *)
Lemma overlapping_fences_counterexample :
  first_at json_fence 0 (PyStr.strip overlapping_fences_reply) /\
  first_at fence 2 (PyStr.drop 7 (PyStr.strip overlapping_fences_reply)) /\
  PyStr.strip (PyStr.take 2 (PyStr.drop 7 (PyStr.strip overlapping_fences_reply))) = "x" /\
  extract overlapping_fences_reply = Ok "x`".
Proof.
  split; [by apply PyStrFacts.find_Some|].
  split; [by apply PyStrFacts.find_Some|].
  split; reflexivity.
Qed.

(** C6, amended. Let text be the trimmed reply. If text contains a json
    fence, the extractor returns the trimmed text between the first json
    fence and the next fence, provided no later json fence starts one or two
    characters after that fence, and the trimmed rest of the text when no
    fence follows. Otherwise, if text contains a fence, it returns the
    trimmed text between the first fence and the next one, or the trimmed
    rest when there is no other. Otherwise it returns text. A fence is in
    the trimmed reply exactly when it is in the raw reply. *)
Theorem extract_spec (raw : string) :
  let text := PyStr.strip raw in
  (forall i, first_at json_fence i text ->
     let rest := PyStr.drop (i + 7) text in
     (forall k, first_at fence k rest ->
        (forall j, occurs_at json_fence j rest -> j = k \/ (k + 3 <= j)%nat) ->
        extract raw = Ok (PyStr.strip (PyStr.take k rest))) /\
     (absent fence rest -> extract raw = Ok (PyStr.strip rest))) /\
  (absent json_fence text ->
   forall i, first_at fence i text ->
     let rest := PyStr.drop (i + 3) text in
     (forall k, first_at fence k rest ->
        extract raw = Ok (PyStr.strip (PyStr.take k rest))) /\
     (absent fence rest -> extract raw = Ok (PyStr.strip rest))) /\
  (absent fence text -> extract raw = Ok text) /\
  (occurs json_fence text <-> occurs json_fence raw) /\
  (occurs fence text <-> occurs fence raw).
Proof.
  cbv zeta. unfold extract. set (text := PyStr.strip raw).
  split; [|split; [|split; [|split]]]; [| | |by apply PyStrFacts.occurs_strip..].
  - intros i Hi. rewrite (strip_code_fence_json text i Hi).
    set (rest := PyStr.drop (i + 7) text). split.
    + intros k Hk Hfar. by rewrite (before_fence_before_json rest k Hk Hfar).
    + intros Habs. by rewrite (before_fence_before_json_absent rest Habs).
  - intros Hnj i Hi. rewrite (strip_code_fence_plain text i Hnj Hi).
    set (rest := PyStr.drop (i + 3) text). split.
    + intros k Hk. by rewrite (PyStrFacts.before_of_first fence rest k Hk).
    + intros Habs. by rewrite (PyStrFacts.before_of_absent fence rest Habs).
  - apply strip_code_fence_none.
Qed.

Lemma extract_spec_witness :
  extract fenced_object_reply = Ok fenced_object /\
  extract "no fences here" = Ok "no fences here".
Proof.
  split.
  - destruct (extract_spec fenced_object_reply) as (Hjson & _).
    destruct (Hjson 0%nat) as (Hnext & _); [by apply PyStrFacts.find_Some|].
    rewrite (Hnext 9%nat).
    + reflexivity.
    + by apply PyStrFacts.find_Some.
    + intros j Hj. exfalso. revert j Hj. by apply PyStrFacts.find_None.
  - destruct (extract_spec "no fences here") as (_ & _ & Hnone & _).
    apply Hnone. by apply PyStrFacts.find_None.
Defined.
